(** * miriskmonitor: alert classification, date fallback, loaders, filters

    A shallow embedding of the decision logic of [app.py] and of the
    banking page ([pages/Etat des Services Bancaires.py]), and the
    properties of it that the specification states.

    Python values are modelled as follows.
    - [str] is a list of Unicode code points ([pystr]); literals are
      written as UTF-8 byte strings and decoded by [py].
    - A [dict] whose iteration order is never observed is a [gmap]; a
      [dict] that is iterated, or whose first key is inspected, is an
      association list in insertion order.
    - An exception is a value of [exn]; a computation that may raise
      returns [result]. *)

From Stdlib Require Import ZArith List Bool Lia Strings.String Strings.Byte.
From stdpp Require Import base option list gmap sorting.

Local Open Scope Z_scope.
Local Set Warnings "-register-all".

(** ** Python strings *)

Module PyStr.

(** A Python [str]: its sequence of code points. *)
Definition pystr : Type := list Z.

(** UTF-8 decoding of a byte sequence, used only to write literals.
    Ill-formed input is decoded byte by byte. *)
Fixpoint utf8_decode (bs : list Z) : pystr :=
  match bs with
  | [] => []
  | b0 :: r0 =>
    if b0 <? 128 then b0 :: utf8_decode r0
    else match r0 with
    | [] => [b0]
    | b1 :: r1 =>
      if b0 <? 224 then
        (Z.lor (Z.shiftl (Z.land b0 31) 6) (Z.land b1 63)) :: utf8_decode r1
      else match r1 with
      | [] => [b0; b1]
      | b2 :: r2 =>
        if b0 <? 240 then
          (Z.lor (Z.shiftl (Z.land b0 15) 12)
             (Z.lor (Z.shiftl (Z.land b1 63) 6) (Z.land b2 63))) :: utf8_decode r2
        else match r2 with
        | [] => [b0; b1; b2]
        | b3 :: r3 =>
          (Z.lor (Z.shiftl (Z.land b0 7) 18)
             (Z.lor (Z.shiftl (Z.land b1 63) 12)
                (Z.lor (Z.shiftl (Z.land b2 63) 6) (Z.land b3 63)))) :: utf8_decode r3
        end
      end
    end
  end.

Definition py (s : string) : pystr :=
  utf8_decode (map (fun b => Z.of_N (Byte.to_N b)) (list_byte_of_string s)).

(** [needle in hay] for two strings: substring test. *)
Fixpoint startswith (s prefix : pystr) : bool :=
  match prefix, s with
  | [], _ => true
  | _ :: _, [] => false
  | p :: prefix', c :: s' => (c =? p) && startswith s' prefix'
  end.

Fixpoint contains (needle hay : pystr) : bool :=
  startswith hay needle ||
  match hay with
  | [] => false
  | _ :: hay' => contains needle hay'
  end.

(** [str.lower()] for one code point.  The ASCII letters and the
    letters of the Latin-1 Supplement are folded (U+00D7, the
    multiplication sign, is not a letter); code points of other blocks
    are returned unchanged. *)
Definition lower_cp (c : Z) : Z :=
  if (65 <=? c) && (c <=? 90) then c + 32
  else if (192 <=? c) && (c <=? 222) && negb (c =? 215) then c + 32
  else c.

Definition lower (s : pystr) : pystr := map lower_cp s.

(** [str.isspace()] for one code point: the Unicode white space that
    [str.strip()] removes. *)
Definition isspace (c : Z) : bool :=
  ((9 <=? c) && (c <=? 13)) || ((28 <=? c) && (c <=? 32))
  || (c =? 133) || (c =? 160) || (c =? 5760)
  || ((8192 <=? c) && (c <=? 8202))
  || (c =? 8232) || (c =? 8233) || (c =? 8239) || (c =? 8287) || (c =? 12288).

Fixpoint lstrip (s : pystr) : pystr :=
  match s with
  | [] => []
  | c :: s' => if isspace c then lstrip s' else s
  end.

Definition rstrip (s : pystr) : pystr := rev (lstrip (rev s)).

Definition strip (s : pystr) : pystr := rstrip (lstrip s).

(** [len(s)] and the truth value of a string in a condition. *)
Definition len (s : pystr) : Z := Z.of_nat (length s).

Definition truthy (s : pystr) : bool :=
  match s with [] => false | _ :: _ => true end.

(** Comparison of strings: lexicographic on code points. *)
Fixpoint str_compare (a b : pystr) : comparison :=
  match a, b with
  | [], [] => Eq
  | [], _ :: _ => Lt
  | _ :: _, [] => Gt
  | x :: a', y :: b' =>
    match x ?= y with
    | Eq => str_compare a' b'
    | c => c
    end
  end.

Definition str_ltb (a b : pystr) : bool :=
  match str_compare a b with Lt => true | _ => false end.

End PyStr.
Import PyStr.

(** ** The alert classifier ([app.py], [calculate_alert_level]) *)

Module Classifier.

(** One region's record of a day: field name to free text. *)
Abbreviation observation := (gmap pystr pystr).

(** [risque.json]: date to region to level label. *)
Abbreviation risk_table := (gmap pystr (gmap pystr pystr)).

(** The value returned: level label, icon, colour. *)
Definition alert : Type := pystr * pystr * pystr.

Definition ELEVE : alert := (py "Élevé", py "🔴", py "#d32f2f").
Definition MOYEN : alert := (py "Moyen", py "🟡", py "#f57c00").
Definition FAIBLE : alert := (py "Faible", py "🟢", py "#388e3c").

Definition level (a : alert) : pystr := a.1.1.

(** [region_data.get(field, '')] *)
Definition get_text (region_data : observation) (field : pystr) : pystr :=
  default [] (region_data !! field).

(** Line 102: [date_str and region_name and date_str in risk_data and
    region_name in risk_data[date_str]], and line 103, the label read
    when the condition holds. *)
Definition risk_lookup (risk_data : risk_table) (region_name date_str : pystr)
  : option pystr :=
  if truthy date_str && truthy region_name then
    by_region ← risk_data !! date_str; by_region !! region_name
  else None.

(** Lines 106-111: the three labels that return at once. *)
Definition from_risk_label (level_fr : pystr) : option alert :=
  if bool_decide (level_fr = py "Élevé") then Some ELEVE
  else if bool_decide (level_fr = py "Moyen") then Some MOYEN
  else if bool_decide (level_fr = py "Faible") then Some FAIBLE
  else None.

(** Lines 120-127: what the situation text adds to the score. *)
Definition situation_score (situation : pystr) : Z :=
  if contains (py "tendu") situation || contains (py "pillage") situation then 3
  else if contains (py "ghost town") situation then 4
  else if contains (py "ras") situation || contains (py "calme") situation then 0
  else 1.

(** Lines 130-133: what the economic activity adds. *)
Definition activites_score (activites : pystr) : Z :=
  if contains (py "fermé") activites || contains (py "ralenti") activites
     || contains (py "vide") activites then 2
  else if contains (py "variable") activites then 1
  else 0.

(** Lines 136-137: what the curfew adds. *)
Definition couvre_feu_score (couvre_feu : pystr) : Z :=
  if contains (py "interdiction") couvre_feu || contains (py "ghost town") couvre_feu
  then 2 else 0.

(** Lines 114-137: the score, from the three lower-cased texts. *)
Definition heuristic_score (region_data : observation) : Z :=
  let score := 0 in
  let situation := lower (get_text region_data (py "Situation générale")) in
  let activites := lower (get_text region_data (py "Activités économiques")) in
  let couvre_feu := lower (get_text region_data (py "Couvre-feu")) in
  let score := score + situation_score situation in
  let score := score + activites_score activites in
  let score := score + couvre_feu_score couvre_feu in
  score.

(** Lines 140-145. *)
Definition level_of_score (score : Z) : alert :=
  if score >=? 5 then ELEVE
  else if score >=? 2 then MOYEN
  else FAIBLE.

Definition calculate_alert_level (risk_data : risk_table)
    (region_data : observation) (region_name date_str : pystr) : alert :=
  match risk_lookup risk_data region_name date_str ≫= from_risk_label with
  | Some a => a
  | None => level_of_score (heuristic_score region_data)
  end.

End Classifier.
Import Classifier.

(** ** Dictionaries that are iterated *)

Module Dict.

(** A [dict] in insertion order. *)
Definition dict (V : Type) : Type := list (pystr * V).

Definition keys {V} (d : dict V) : list pystr := map fst d.

(** [d.get(k)]: [None] when [k] is not a key. *)
Fixpoint get {V} (k : pystr) (d : dict V) : option V :=
  match d with
  | [] => None
  | (k', v) :: d' => if bool_decide (k' = k) then Some v else get k d'
  end.

End Dict.

(** ** The summary table and its filter ([app.py], lines 147-161 and 290-299) *)

Module Aggregator.

(** One region's observations of a day, in the order of the source. *)
Abbreviation snapshot := (Dict.dict observation).

Record stat_row := {
  Region : pystr;
  Niveau_d_alerte : pystr;
  Icone : pystr;
  Situation : pystr;
  Activites : pystr;
  Circulation : pystr;
  Couvre_feu : pystr
}.

(** [info.get(field, 'N/A')] *)
Definition get_or_na (info : observation) (field : pystr) : pystr :=
  default (py "N/A") (info !! field).

Definition create_statistics_dataframe (risk_data : risk_table)
    (data : snapshot) (date_str : pystr) : list stat_row :=
  map (fun '(region, info) =>
         let '(level, icon, color) :=
           calculate_alert_level risk_data info region date_str in
         {| Region := region;
            Niveau_d_alerte := level;
            Icone := icon;
            Situation := get_or_na info (py "Situation générale");
            Activites := get_or_na info (py "Activités économiques");
            Circulation := get_or_na info (py "Circulation");
            Couvre_feu := get_or_na info (py "Couvre-feu") |})
      data.

(** Lines 293-299: [isin(selected_regions)], then one removal per
    unticked box. *)
Definition filtered_df (df_stats : list stat_row) (selected_regions : list pystr)
    (show_high show_medium show_low : bool) : list stat_row :=
  let filtered_df := filter (fun r => Region r ∈ selected_regions) df_stats in
  let filtered_df :=
    if negb show_high
    then filter (fun r => Niveau_d_alerte r ≠ py "Élevé") filtered_df
    else filtered_df in
  let filtered_df :=
    if negb show_medium
    then filter (fun r => Niveau_d_alerte r ≠ py "Moyen") filtered_df
    else filtered_df in
  let filtered_df :=
    if negb show_low
    then filter (fun r => Niveau_d_alerte r ≠ py "Faible") filtered_df
    else filtered_df in
  filtered_df.

(** Line 254 and the default of the multiselect of line 255. *)
Definition all_regions (security_data : snapshot) : list pystr :=
  Dict.keys security_data.

End Aggregator.
Import Aggregator.

(** ** Calendar dates ([datetime]) *)

Module Calendar.

Record date := { year : Z; month : Z; day : Z }.

Definition is_leap (y : Z) : bool :=
  (y mod 4 =? 0) && (negb (y mod 100 =? 0) || (y mod 400 =? 0)).

Definition days_in_month (y m : Z) : Z :=
  match m with
  | 1 | 3 | 5 | 7 | 8 | 10 | 12 => 31
  | 4 | 6 | 9 | 11 => 30
  | 2 => if is_leap y then 29 else 28
  | _ => 0
  end.

(** Days before 1 January of year [y], in the proleptic Gregorian
    calendar. *)
Definition days_before_year (y : Z) : Z :=
  let y := y - 1 in y * 365 + y / 4 - y / 100 + y / 400.

(** Days of year [y] before the first of month [m]. *)
Definition days_before_month (y m : Z) : Z :=
  match m with
  | 1 => 0 | 2 => 31 | 3 => 59 | 4 => 90 | 5 => 120 | 6 => 151
  | 7 => 181 | 8 => 212 | 9 => 243 | 10 => 273 | 11 => 304 | 12 => 334
  | _ => 0
  end + (if (2 <? m) && is_leap y then 1 else 0).

(** [date.toordinal()]: 1 for 0001-01-01. *)
Definition toordinal (d : date) : Z :=
  days_before_year (year d) + days_before_month (year d) (month d) + day d.

(** What the [datetime] constructor accepts. *)
Definition valid_date (d : date) : bool :=
  (1 <=? year d) && (year d <=? 9999) && (1 <=? month d) && (month d <=? 12)
  && (1 <=? day d) && (day d <=? days_in_month (year d) (month d)).

Definition digit (c : Z) : option Z :=
  if (48 <=? c) && (c <=? 57) then Some (c - 48) else None.

(** A field of one or two decimal digits. *)
Definition short_field (f : pystr) : option Z :=
  match f with
  | [a] => digit a
  | [a; b] => x ← digit a; y ← digit b; Some (10 * x + y)
  | _ => None
  end.

Definition year_field (f : pystr) : option Z :=
  match f with
  | [a; b; c; d] =>
    w ← digit a; x ← digit b; y ← digit c; z ← digit d;
    Some (1000 * w + 100 * x + 10 * y + z)
  | _ => None
  end.

(** [s.split(sep)] for a one-character separator. *)
Fixpoint split_on (sep : Z) (s : pystr) : list pystr :=
  match s with
  | [] => [[]]
  | c :: s' =>
    if c =? sep then [] :: split_on sep s'
    else match split_on sep s' with
         | [] => [[c]]
         | f :: fs => (c :: f) :: fs
         end
  end.

(** The day may also be one digit after a space. *)
Definition day_field (f : pystr) : option Z :=
  match f with
  | [a; b] => if a =? 32 then digit b else short_field f
  | _ => short_field f
  end.

(** [datetime.strptime(s, "%Y-%m-%d")]; [None] stands for the
    [ValueError] raised on a string that does not match or that names
    no day of the calendar.  The year has four digits, the month and
    the day one or two; only the ASCII digits are modelled. *)
Definition strptime (s : pystr) : option date :=
  match split_on 45 s with
  | [fy; fm; fd] =>
    y ← year_field fy; m ← short_field fm; d ← day_field fd;
    let r := {| year := y; month := m; day := d |} in
    if valid_date r then Some r else None
  | _ => None
  end.

Definition digit_cp (n : Z) : Z := 48 + n mod 10.

Definition two_digits (n : Z) : pystr := [digit_cp (n / 10); digit_cp n].

Definition four_digits (n : Z) : pystr :=
  [digit_cp (n / 1000); digit_cp (n / 100); digit_cp (n / 10); digit_cp n].

(** [d.strftime("%Y-%m-%d")], for a year of four digits. *)
Definition strftime_iso (d : date) : pystr :=
  four_digits (year d) ++ [45] ++ two_digits (month d) ++ [45] ++ two_digits (day d).

(** [d.strftime("%d/%m/%Y")], for a year of four digits. *)
Definition strftime_fr (d : date) : pystr :=
  two_digits (day d) ++ [47] ++ two_digits (month d) ++ [47] ++ four_digits (year d).

End Calendar.
Import Calendar.

(** ** Sorting and minimum, as Python's built-ins compute them *)

Module Builtins.

(** Insertion of [x], which stood before every element of [l] in the
    input, so that equal elements keep their order. *)
Fixpoint insert_sorted {A} (lt : A -> A -> bool) (x : A) (l : list A) : list A :=
  match l with
  | [] => [x]
  | y :: l' => if lt y x then y :: insert_sorted lt x l' else x :: l
  end.

(** A stable sort by [lt]. *)
Definition sort_by {A} (lt : A -> A -> bool) (l : list A) : list A :=
  foldr (insert_sorted lt) [] l.

(** [sorted(l)] and [sorted(l, reverse=True)] on strings. *)
Definition sorted (l : list pystr) : list pystr := sort_by str_ltb l.

Definition sorted_reverse (l : list pystr) : list pystr :=
  sort_by (fun a b => str_ltb b a) l.

(** The loop of [min(l, key=...)]: the candidate changes only for a
    strictly smaller key. *)
Fixpoint min_loop {A} (best : A * Z) (l : list (A * Z)) : A * Z :=
  match l with
  | [] => best
  | x :: l' => min_loop (if x.2 <? best.2 then x else best) l'
  end.

(** [min(l, key=key)]; [None] when [l] is empty or a key raises. *)
Definition min_key {A} (key : A -> option Z) (l : list A) : option A :=
  keyed ← mapM (fun x => k ← key x; Some (x, k)) l;
  match keyed with
  | [] => None
  | x :: keyed' => Some (min_loop x keyed').1
  end.

End Builtins.
Import Builtins.

(** ** The date index and the selected date ([app.py], lines 93 and 186-225) *)

Module DateIndex.

(** [all_security_data]: date to snapshot, in the order of the source. *)
Abbreviation store := (Dict.dict snapshot).

(** Line 93. *)
Definition available_dates (all_security_data : store) : list pystr :=
  sorted_reverse (Dict.keys all_security_data).

(** The key of lines 208-210: [abs] of the difference of two
    midnights, in days. *)
Definition day_distance (selected_date d : pystr) : option Z :=
  a ← strptime d; b ← strptime selected_date;
  Some (Z.abs (toordinal a - toordinal b)).

(** Lines 208-210. *)
Definition closest_date (available_dates : list pystr) (selected_date : pystr)
  : option pystr :=
  min_key (day_distance selected_date) available_dates.

(** Lines 186-225: the date shown, for the day picked in the sidebar;
    [None] when a date of the index does not parse. *)
Definition select_date (available_dates : list pystr)
    (selected_date_obj now : date) : option pystr :=
  match available_dates with
  | [] => Some (strftime_iso now)
  | _ :: _ =>
    date_objects ← mapM strptime available_dates;
    let selected_date := strftime_iso selected_date_obj in
    if bool_decide (selected_date ∈ available_dates) then Some selected_date
    else closest_date available_dates selected_date
  end.

End DateIndex.
Import DateIndex.

(** ** Exceptions *)

Module Exn.

Inductive exn := FileNotFoundError | JSONDecodeError | AttributeError | TypeError.

Inductive result (A : Type) :=
  | Return (a : A)
  | Raise (e : exn).
Arguments Return {A} a.
Arguments Raise {A} e.

#[global] Instance result_ret : MRet result := fun A a => Return a.
#[global] Instance result_bind : MBind result := fun A B f r =>
  match r with
  | Return a => f a
  | Raise e => Raise e
  end.

End Exn.
Import Exn.

(** ** The loader of the security source ([app.py], lines 43-65) *)

Module Loader.

(** A value read by [json.load]. *)
Inductive json :=
  | JNull
  | JBool (b : bool)
  | JNum (n : Z)
  | JStr (s : pystr)
  | JArr (l : list json)
  | JObj (members : list (pystr * json)).

(** [security_data.json] as the loader meets it: no such file, a file
    that [json.load] rejects, or a file that it reads as [data]. *)
Inductive source_file :=
  | Missing
  | Malformed
  | Parsed (data : json).

(** Lines 48-49: [open] and [json.load]. *)
Definition json_load (f : source_file) : result json :=
  match f with
  | Missing => Raise FileNotFoundError
  | Malformed => Raise JSONDecodeError
  | Parsed data => Return data
  end.

(** The truth value of [data] in a condition. *)
Definition json_truthy (data : json) : bool :=
  match data with
  | JNull => false
  | JBool b => b
  | JNum n => negb (n =? 0)
  | JStr s => truthy s
  | JArr l => match l with [] => false | _ => true end
  | JObj m => match m with [] => false | _ => true end
  end.

(** Line 53: [list(data.keys())[0] if data else ""]. *)
Definition first_key_of (data : json) : result pystr :=
  if json_truthy data then
    match data with
    | JObj ((k, _) :: _) => Return k
    | _ => Raise AttributeError
    end
  else Return [].

(** Line 55. *)
Definition looks_like_date (first_key : pystr) : bool :=
  truthy first_key && (len first_key =? 10)
  && bool_decide (first_key !! 4%nat = Some 45)
  && bool_decide (first_key !! 7%nat = Some 45).

(** Messages sent to the page. *)
Inductive st_call :=
  | st_error (msg : pystr)
  | st_warning (msg : pystr).

(** Lines 48-61, the body of the [try]. *)
Definition load_body (f : source_file) (now : date) : result json :=
  data ← json_load f;
  first_key ← first_key_of data;
  if looks_like_date first_key then Return data
  else
    let today := strftime_iso now in
    Return (JObj [(today, data)]).

(** The value returned, or the exception that leaves the function, with
    the messages shown. *)
Definition load_security_data_by_date (f : source_file) (now : date)
  : result json * list st_call :=
  match load_body f now with
  | Raise FileNotFoundError =>
    (Return (JObj []), [st_error (py "⚠️ Fichier security_data.json non trouvé")])
  | r => (r, [])
  end.

End Loader.
Import Loader.

(** ** The series across dates ([app.py], lines 378-402 and 448-479) *)

Module Series.

Record comparison_row := {
  c_Date : pystr;
  c_Region : pystr;
  c_Niveau : pystr
}.

(** [datetime.strptime(d, "%Y-%m-%d").strftime("%d/%m/%Y")] *)
Definition display_date (date_str : pystr) : option pystr :=
  d ← strptime date_str; Some (strftime_fr d).

(** The loops of lines 381-388 and 393-400 over the selected regions:
    one row appended to [comparison_data] per region that [data] holds.
    [None] when the date does not parse at a row to append. *)
Fixpoint append_date_rows (risk_data : risk_table) (data : snapshot)
    (date_str : pystr) (selected_regions : list pystr)
    (comparison_data : list comparison_row) : option (list comparison_row) :=
  match selected_regions with
  | [] => Some comparison_data
  | region :: regions =>
    match Dict.get region data with
    | Some info =>
      let '(level, _, _) := calculate_alert_level risk_data info region date_str in
      shown ← display_date date_str;
      append_date_rows risk_data data date_str regions
        (comparison_data ++ [{| c_Date := shown; c_Region := region; c_Niveau := level |}])
    | None => append_date_rows risk_data data date_str regions comparison_data
    end
  end.

(** The loop of lines 391-400 over the dates to compare with. *)
Fixpoint append_comparison_dates (risk_data : risk_table) (all_security_data : store)
    (comparison_dates selected_regions : list pystr)
    (comparison_data : list comparison_row) : option (list comparison_row) :=
  match comparison_dates with
  | [] => Some comparison_data
  | comp_date :: dates =>
    let comp_data := default [] (Dict.get comp_date all_security_data) in
    comparison_data ←
      append_date_rows risk_data comp_data comp_date selected_regions comparison_data;
    append_comparison_dates risk_data all_security_data dates selected_regions
      comparison_data
  end.

(** Lines 378-400. *)
Definition comparison_data (risk_data : risk_table) (all_security_data : store)
    (security_data : snapshot) (selected_date : pystr)
    (comparison_dates selected_regions : list pystr) : option (list comparison_row) :=
  comparison_data ←
    append_date_rows risk_data security_data selected_date selected_regions [];
  append_comparison_dates risk_data all_security_data comparison_dates
    selected_regions comparison_data.

(** The [Date] cell of the evolution table: a [datetime], or the raw
    key when it does not parse (lines 464-467). *)
Inductive date_cell :=
  | Timestamp (d : date)
  | Text (s : pystr).

Record evo_row := {
  e_Date : date_cell;
  e_Region : pystr;
  e_Niveau : pystr;
  e_Score : option Z
}.

(** Line 451, with [score_map.get(level, None)]. *)
Definition score_map : gmap pystr Z :=
  {[ py "Faible" := 1; py "Moyen" := 2; py "Élevé" := 3 ]}.

(** Line 450. *)
Definition sorted_dates (risk_data : risk_table) : list pystr :=
  sorted (elements (dom risk_data)).

(** Line 454. *)
Definition target_regions : list pystr :=
  [py "Far North"; py "Littoral"; py "Centre"; py "North"; py "West"].

(** [risk_data.get(date_str, {}).get(region)] *)
Definition risk_get (risk_data : risk_table) (date_str region : pystr) : option pystr :=
  by_region ← risk_data !! date_str; by_region !! region.

(** Lines 456-458. *)
Definition regions_to_plot (risk_data : risk_table) (selected_regions : list pystr)
  : list pystr :=
  let regions_to_plot := filter (fun r => r ∈ selected_regions) target_regions in
  match regions_to_plot with
  | [] =>
    filter (fun r => Exists (fun d => is_Some (risk_get risk_data d r))
                       (sorted_dates risk_data))
      target_regions
  | _ :: _ => regions_to_plot
  end.

(** Lines 464-467. *)
Definition date_obj (date_str : pystr) : date_cell :=
  match strptime date_str with
  | Some d => Timestamp d
  | None => Text date_str
  end.

(** Lines 461-473, the inner loop: a row for each region with a
    non-empty label on that date. *)
Fixpoint append_evo_rows (risk_data : risk_table) (date_str : pystr)
    (regions : list pystr) (rows : list evo_row) : list evo_row :=
  match regions with
  | [] => rows
  | region :: regions' =>
    match risk_get risk_data date_str region with
    | Some level =>
      if truthy level then
        append_evo_rows risk_data date_str regions'
          (rows ++ [{| e_Date := date_obj date_str; e_Region := region;
                       e_Niveau := level; e_Score := score_map !! level |}])
      else append_evo_rows risk_data date_str regions' rows
    | None => append_evo_rows risk_data date_str regions' rows
    end
  end.

(** Lines 460-473, the outer loop. *)
Fixpoint append_evo_dates (risk_data : risk_table) (dates regions : list pystr)
    (rows : list evo_row) : list evo_row :=
  match dates with
  | [] => rows
  | date_str :: dates' =>
    append_evo_dates risk_data dates' regions
      (append_evo_rows risk_data date_str regions rows)
  end.

Definition evo_rows (risk_data : risk_table) (selected_regions : list pystr)
  : list evo_row :=
  append_evo_dates risk_data (sorted_dates risk_data)
    (regions_to_plot risk_data selected_regions) [].

Definition timestamp_of (r : evo_row) : option Z :=
  match e_Date r with Timestamp d => Some (toordinal d) | Text _ => None end.

Definition text_of (r : evo_row) : option pystr :=
  match e_Date r with Timestamp _ => None | Text s => Some s end.

Definition date_ltb (a b : evo_row) : bool :=
  match e_Date a, e_Date b with
  | Timestamp x, Timestamp y => toordinal x <? toordinal y
  | Text x, Text y => str_ltb x y
  | _, _ => false
  end.

(** Line 479, [sort_values("Date")]: ascending.  A column of
    [datetime] values and a column of strings are each ordered; a
    column that mixes them cannot be compared.  The sort is written as
    a stable one; pandas does not promise the order of rows of equal
    date. *)
Definition sort_values_Date (rows : list evo_row) : result (list evo_row) :=
  if forallb (fun r => bool_decide (is_Some (timestamp_of r))) rows
     || forallb (fun r => bool_decide (is_Some (text_of r))) rows
  then Return (sort_by date_ltb rows)
  else Raise TypeError.

(** Lines 448-479.  The page draws the table only when it has a row. *)
Definition evo_df (risk_data : risk_table) (selected_regions : list pystr)
  : result (list evo_row) :=
  sort_values_Date (evo_rows risk_data selected_regions).

End Series.
Import Series.

(** ** The banking page ([pages/Etat des Services Bancaires.py], line 56) *)

Module Banking.

(** The dictionary given to [map]. *)
Definition ouvert_labels : gmap pystr pystr :=
  {[ py "oui" := py "Oui"; py "non" := py "Non" ]}.

(** One cell of the column [Ouvert]: [None] is a missing value, which
    [.str] and [.map] leave missing; a text that is no key of the
    dictionary becomes missing. *)
Definition normalize_ouvert (cell : option pystr) : option pystr :=
  s ← cell; ouvert_labels !! lower (strip s).

(** [df['Ouvert'].str.strip().str.lower().map({...})] *)
Definition clean_Ouvert (column : list (option pystr)) : list (option pystr) :=
  map normalize_ouvert column.

End Banking.
Import Banking.

(** ** The rest of the security page ([app.py]) *)

Module Page.

(** [len(df)] for a table. *)
Definition nrows {A} (df : list A) : Z := Z.of_nat (length df).

(** Lines 302-309: the four metrics of the overview. *)
Definition total_regions (filtered_df : list stat_row) : Z := nrows filtered_df.

Definition alert_high (filtered_df : list stat_row) : Z :=
  nrows (filter (fun r => Niveau_d_alerte r = py "Élevé") filtered_df).

Definition alert_medium (filtered_df : list stat_row) : Z :=
  nrows (filter (fun r => Niveau_d_alerte r = py "Moyen") filtered_df).

Definition alert_low (filtered_df : list stat_row) : Z :=
  nrows (filter (fun r => Niveau_d_alerte r = py "Faible") filtered_df).

(** Line 505: the rows listed under the night restrictions. *)
Definition couvre_feu_active (filtered_df : list stat_row) : list stat_row :=
  filter (fun r => lower (Couvre_feu r) ≠ py "ras") filtered_df.

(** Lines 549-552: the colour of a region of the map.
    [security_data.get(region, {})] is the empty record for a region
    that the snapshot does not hold. *)
Definition get_region_color (risk_data : risk_table) (security_data : snapshot)
    (selected_date region : pystr) : pystr :=
  let d := default ∅ (Dict.get region security_data) in
  let '(level, _, color) := calculate_alert_level risk_data d region selected_date in
  color.

(** [l[i]] with Python's negative indices; [None] is [IndexError]. *)
Definition getitem {A} (l : list A) (i : Z) : option A :=
  if 0 <=? i then l !! Z.to_nat i
  else if - nrows l <=? i then l !! Z.to_nat (nrows l + i)
  else None.

(** Line 372: the dates offered for comparison. *)
Definition comparison_options (available_dates : list pystr) (selected_date : pystr)
  : list pystr :=
  filter (fun d => d ≠ selected_date) available_dates.

(** Line 373: the date ticked at first. *)
Definition comparison_default (available_dates : list pystr) : option (list pystr) :=
  d ← getitem available_dates (Z.min 1 (nrows available_dates - 1));
  Some [d].

End Page.
Import Page.

(** ** The rest of the banking page
    ([pages/Etat des Services Bancaires.py], lines 103-409) *)

Module BankingPage.

#[global] Instance date_eq_dec : EqDecision date.
Proof. solve_decision. Defined.

(** One row of the sheet after [load_banking_data]; [None] is a
    missing value. *)
Record bank_record := {
  b_Date : date;
  b_Ville : option pystr;
  b_Quartier : option pystr;
  b_Operateurs : option pystr;
  b_Ouvert : option pystr;
  b_Heure_de_fermeture : option pystr
}.

Definition is_open (r : bank_record) : Prop := b_Ouvert r = Some (py "Oui").
Definition is_closed (r : bank_record) : Prop := b_Ouvert r = Some (py "Non").

(** Lines 103-129: the three filters of the sidebar. *)
Definition df_filtered (df_banking : list bank_record) (selected_date : date)
    (selected_city status_filter : pystr) : list bank_record :=
  let df_filtered := filter (fun r => b_Date r = selected_date) df_banking in
  let df_filtered :=
    if bool_decide (selected_city ≠ py "Toutes")
    then filter (fun r => b_Ville r = Some selected_city) df_filtered
    else df_filtered in
  let df_filtered :=
    if bool_decide (status_filter = py "Ouverts uniquement")
    then filter is_open df_filtered
    else if bool_decide (status_filter = py "Fermés uniquement")
    then filter is_closed df_filtered
    else df_filtered in
  df_filtered.

(** Lines 136-138. *)
Definition total_banks (df_filtered : list bank_record) : Z := nrows df_filtered.

Definition banks_open (df_filtered : list bank_record) : Z :=
  nrows (filter is_open df_filtered).

Definition banks_closed (df_filtered : list bank_record) : Z :=
  nrows (filter is_closed df_filtered).

(** The keys of a [groupby], and the index of [value_counts] after
    [sort_index]: the values present, each once, in ascending order;
    missing values make no group. *)
Definition group_keys (column : list (option pystr)) : list pystr :=
  sorted (remove_dups (omap id column)).

(** Lines 185-191, without the rate of line 192, a rounded float. *)
Record city_stat := {
  cs_Ville : pystr;
  cs_Total : Z;
  cs_Ouverts : Z;
  cs_Fermes : Z
}.

(** ['Opérateurs': 'count'] counts the operators that are present;
    the lambda counts the rows that are open. *)
Definition city_stats (df_filtered : list bank_record) : list city_stat :=
  map (fun ville =>
         let group := filter (fun r => b_Ville r = Some ville) df_filtered in
         let total := nrows (filter (fun r => is_Some (b_Operateurs r)) group) in
         let ouverts := nrows (filter is_open group) in
         {| cs_Ville := ville; cs_Total := total; cs_Ouverts := ouverts;
            cs_Fermes := total - ouverts |})
      (group_keys (map b_Ville df_filtered)).

(** Lines 340-343. *)
Definition banks_with_hours (df_filtered : list bank_record) : list bank_record :=
  filter (fun r => is_open r /\ is_Some (b_Heure_de_fermeture r)) df_filtered.

(** Line 350: [value_counts().sort_index()]. *)
Definition hour_counts (banks_with_hours : list bank_record) : list (pystr * Z) :=
  map (fun h =>
         (h, nrows (filter (fun r => b_Heure_de_fermeture r = Some h) banks_with_hours)))
      (group_keys (map b_Heure_de_fermeture banks_with_hours)).

(** Line 398: the status shown in the list. *)
Definition statut (ouvert : option pystr) : pystr :=
  if bool_decide (ouvert = Some (py "Oui")) then py "🟢 Ouvert" else py "🔴 Fermé".

(** Lines 405-409, for the five columns of the list. *)
Definition color_status (row_Statut : pystr) : list pystr :=
  if contains (py "🟢") row_Statut
  then replicate 5 (py "background-color: #e8f5e9")
  else replicate 5 (py "background-color: #ffebee").

End BankingPage.
Import BankingPage.

(** ** Statements of the specification, and sample inputs *)

Module Samples.

(** A text that is [w] up to the case of its ASCII letters, between
    two runs of white space; [w] is in lower case. *)
Definition same_letter (c l : Z) : Prop := c = l \/ c = l - 32.

Definition case_variant (v w : pystr) : Prop := Forall2 same_letter v w.

Definition spaced_variant (s w : pystr) : Prop :=
  exists pre v post,
    s = pre ++ v ++ post /\
    Forall (fun c => isspace c = true) pre /\
    Forall (fun c => isspace c = true) post /\
    case_variant v w.

(** Whether a box of the sidebar lets a level through. *)
Definition level_enabled (show_high show_medium show_low : bool) (r : stat_row) : Prop :=
  (Niveau_d_alerte r = py "Élevé" -> show_high = true) /\
  (Niveau_d_alerte r = py "Moyen" -> show_medium = true) /\
  (Niveau_d_alerte r = py "Faible" -> show_low = true).

(** A date as the sources write it: a day of the calendar with a year
    of four digits, in ten characters. *)
Definition iso_date (s : pystr) : Prop :=
  exists d, valid_date d = true /\ 1000 <= year d /\ s = strftime_iso d.

(** The snapshot of a date: line 230 and line 392. *)
Definition data_for (all_security_data : store) (date_str : pystr) : snapshot :=
  default [] (Dict.get date_str all_security_data).

(** The rows of one date in the comparison: one per selected region
    that the snapshot holds, in the order of the selection. *)
Definition date_rows (risk_data : risk_table) (all_security_data : store)
    (selected_regions : list pystr) (date_str : pystr) : list comparison_row :=
  omap (fun region =>
          info ← Dict.get region (data_for all_security_data date_str);
          shown ← display_date date_str;
          Some {| c_Date := shown; c_Region := region;
                  c_Niveau :=
                    level (calculate_alert_level risk_data info region date_str) |})
       selected_regions.

(** The day of a row of the evolution table. *)
Definition evo_day (r : evo_row) : Z := default 0 (timestamp_of r).

Definition d_2025_01_09 : pystr := py "2025-01-09".
Definition d_2025_01_10 : pystr := py "2025-01-10".
Definition d_2025_01_11 : pystr := py "2025-01-11".
Definition d_2025_01_12 : pystr := py "2025-01-12".

Definition day_2025_01_10 : date := {| year := 2025; month := 1; day := 10 |}.

(** A tense day with a ghost-town call. *)
Definition obs_tense_ghost_town : observation :=
  {[ py "Situation générale" := py "Tendu, ghost town annoncé" ]}.

(** The observation of the end-to-end scenario of the specification. *)
Definition obs_north : observation :=
  {[ py "Situation générale" := py "Ghost town";
     py "Activités économiques" := py "fermé";
     py "Couvre-feu" := py "interdiction" ]}.

(** Only a ghost-town call: score 4. *)
Definition obs_ghost_town_only : observation :=
  {[ py "Situation générale" := py "Ghost town" ]}.

Definition risk_north_faible : risk_table :=
  {[ d_2025_01_10 := {[ py "North" := py "Faible" ]} ]}.

(** An override filed under the empty region name. *)
Definition risk_unnamed_faible : risk_table :=
  {[ d_2025_01_10 := {[ [] := py "Faible" ]} ]}.

(** An override whose label is English. *)
Definition risk_north_low : risk_table :=
  {[ d_2025_01_10 := {[ py "North" := py "Low" ]} ]}.

Definition store_10_12 : store :=
  [(d_2025_01_10, [(py "North", obs_north)]);
   (d_2025_01_12, [(py "North", obs_north)])].

Definition store_09_10 : store :=
  [(d_2025_01_10, [(py "North", obs_north)]);
   (d_2025_01_09, [(py "North", obs_north)])].

Definition df_north : list stat_row :=
  create_statistics_dataframe ∅ [(py "North", obs_north)] d_2025_01_10.

End Samples.
Import Samples.

(** ** Further statements and sample inputs *)

Module PageSamples.

(** The sum of a column of counts. *)
Definition total_of (counts : list Z) : Z := foldr Z.add 0 counts.

Definition SITUATION : pystr := py "Situation générale".
Definition ACTIVITES : pystr := py "Activités économiques".
Definition COUVRE_FEU : pystr := py "Couvre-feu".

(** The pairs of level and icon that a row may show. *)
Definition level_icons : list (pystr * pystr) :=
  [(py "Élevé", py "🔴"); (py "Moyen", py "🟡"); (py "Faible", py "🟢")].

(** A calm day with shops closed and a ban on circulation: score 4. *)
Definition obs_calm_closed_ban : observation :=
  {[ py "Situation générale" := py "Calme";
     py "Activités économiques" := py "fermé";
     py "Couvre-feu" := py "interdiction" ]}.

Definition obs_tense_upper : observation :=
  {[ py "Situation générale" := py "TENDU" ]}.

Definition obs_tense_lower : observation :=
  {[ py "Situation générale" := py "tendu" ]}.

(** A record with a circulation field only. *)
Definition obs_circulation_only : observation :=
  {[ py "Circulation" := py "fluide" ]}.

Definition snapshot_north : snapshot := [(py "North", obs_circulation_only)].

(** Three establishments of one day: one open with its closing time,
    one closed, one whose status was not understood. *)
Definition bank_open : bank_record :=
  {| b_Date := day_2025_01_10; b_Ville := Some (py "Douala");
     b_Quartier := Some (py "Akwa"); b_Operateurs := Some (py "UBA");
     b_Ouvert := normalize_ouvert (Some (py " OUI"));
     b_Heure_de_fermeture := Some (py "15h") |}.

Definition bank_closed : bank_record :=
  {| b_Date := day_2025_01_10; b_Ville := Some (py "Yaoundé");
     b_Quartier := Some (py "Bastos"); b_Operateurs := Some (py "BICEC");
     b_Ouvert := normalize_ouvert (Some (py "non"));
     b_Heure_de_fermeture := None |}.

Definition bank_unknown : bank_record :=
  {| b_Date := day_2025_01_10; b_Ville := Some (py "Douala");
     b_Quartier := Some (py "Bonanjo"); b_Operateurs := Some (py "SGC");
     b_Ouvert := normalize_ouvert (Some (py "yes"));
     b_Heure_de_fermeture := None |}.

Definition df_banks : list bank_record := [bank_open; bank_closed; bank_unknown].

End PageSamples.
Import PageSamples.

(** * Properties *)

(** ** Strings *)

Section StringFacts.

(** Literals are decoded to code points: two bytes for "é", four for
    the red disc. *)
Example py_e_acute : py "fermé" = [102; 101; 114; 109; 233].
Proof. reflexivity. Qed.

Example py_red_disc : py "🔴" = [128308].
Proof. reflexivity. Qed.

Lemma lstrip_spaces (pre s : pystr) :
  Forall (fun c => isspace c = true) pre -> lstrip (pre ++ s) = lstrip s.
Proof.
  induction 1 as [|c pre Hc _ IH]; [reflexivity|].
  simpl. rewrite Hc. exact IH.
Qed.

Lemma lstrip_solid (c : Z) (s : pystr) :
  isspace c = false -> lstrip (c :: s) = c :: s.
Proof. intros H. simpl. rewrite H. reflexivity. Qed.

Lemma rstrip_spaces (s post : pystr) (z : Z) :
  isspace z = false ->
  Forall (fun c => isspace c = true) post ->
  rstrip (s ++ [z] ++ post) = s ++ [z].
Proof.
  intros Hz Hpost. unfold rstrip.
  rewrite !rev_app_distr. simpl. rewrite <- app_assoc.
  rewrite lstrip_spaces by (apply Forall_rev; exact Hpost).
  simpl. rewrite Hz.
  change (z :: rev s) with (rev [z] ++ rev s).
  rewrite <- rev_app_distr, rev_involutive. reflexivity.
Qed.

(** [strip] removes the white space around a text that starts and ends
    with something else. *)
Lemma strip_spaces (pre mid post : pystr) (a z : Z) :
  isspace a = false -> isspace z = false ->
  Forall (fun c => isspace c = true) pre ->
  Forall (fun c => isspace c = true) post ->
  strip (pre ++ (a :: mid ++ [z]) ++ post) = a :: mid ++ [z].
Proof.
  intros Ha Hz Hpre Hpost. unfold strip.
  rewrite lstrip_spaces by exact Hpre.
  simpl app at 1. rewrite lstrip_solid by exact Ha.
  rewrite <- app_assoc.
  change (a :: mid ++ [z] ++ post) with ((a :: mid) ++ [z] ++ post).
  rewrite rstrip_spaces by assumption. reflexivity.
Qed.

End StringFacts.

(** ** The alert classifier *)

Section ClassifierFacts.

Lemma from_risk_label_level (level_fr : pystr) (a : alert) :
  from_risk_label level_fr = Some a -> level a = level_fr.
Proof.
  unfold from_risk_label. intros H.
  repeat case_bool_decide; simplify_eq; reflexivity.
Qed.

Lemma from_risk_label_none (level_fr : pystr) :
  level_fr <> py "Élevé" -> level_fr <> py "Moyen" -> level_fr <> py "Faible" ->
  from_risk_label level_fr = None.
Proof.
  intros H1 H2 H3. unfold from_risk_label.
  rewrite !bool_decide_eq_false_2 by assumption. reflexivity.
Qed.

Lemma risk_lookup_entry (risk_data : risk_table) (by_region : gmap pystr pystr)
    (region_name date_str level_fr : pystr) :
  date_str <> [] -> region_name <> [] ->
  risk_data !! date_str = Some by_region ->
  by_region !! region_name = Some level_fr ->
  risk_lookup risk_data region_name date_str = Some level_fr.
Proof.
  intros Hd Hr Hm Hl. unfold risk_lookup.
  destruct date_str; [done|]. destruct region_name; [done|].
  simpl. rewrite Hm. simpl. exact Hl.
Qed.

Lemma level_of_score_cases (score : Z) :
  (5 <= score -> level_of_score score = ELEVE) /\
  (2 <= score < 5 -> level_of_score score = MOYEN) /\
  (score < 2 -> level_of_score score = FAIBLE).
Proof.
  unfold level_of_score.
  destruct (Z.geb_spec score 5), (Z.geb_spec score 2); repeat split; intros; (reflexivity || lia).
Qed.

Lemma alerts_distinct : ELEVE <> MOYEN /\ ELEVE <> FAIBLE /\ MOYEN <> FAIBLE.
Proof. repeat split; intros H; vm_compute in H; discriminate H. Qed.

(** The scenario of the specification: a ghost town, shops closed, a
    ban on circulation. *)
Example scenario_north_high :
  heuristic_score obs_north = 8 /\
  calculate_alert_level ∅ obs_north (py "North") d_2025_01_10 = ELEVE.
Proof. split; reflexivity. Qed.

(** C1, as the code has it.  When the lower-cased situation text
    contains "ghost town", the situation signal adds 3 if the text also
    contains "tendu" or "pillage", which are tested first, and 4 only
    if it contains neither. *)
Theorem situation_tense_tested_before_ghost_town (region_data : observation) :
  let situation := lower (get_text region_data (py "Situation générale")) in
  contains (py "ghost town") situation = true ->
  situation_score situation =
    if contains (py "tendu") situation || contains (py "pillage") situation
    then 3 else 4.
Proof.
  intros situation Hghost. unfold situation_score.
  destruct (contains (py "tendu") situation || contains (py "pillage") situation);
    [reflexivity|].
  rewrite Hghost. reflexivity.
Qed.

Lemma situation_tense_tested_before_ghost_town_witness :
  situation_score (lower (get_text obs_tense_ghost_town (py "Situation générale"))) = 3 /\
  situation_score (lower (get_text obs_ghost_town_only (py "Situation générale"))) = 4.
Proof.
  split.
  - rewrite (situation_tense_tested_before_ghost_town obs_tense_ghost_town);
      reflexivity.
  - rewrite (situation_tense_tested_before_ghost_town obs_ghost_town_only);
      reflexivity.
Defined.

(** C1, as stated, fails: a situation text with both "tendu" and
    "ghost town" adds 3 to the score, not 4. *)
Lemma tense_and_ghost_town_adds_three :
  let situation := lower (get_text obs_tense_ghost_town (py "Situation générale")) in
  contains (py "tendu") situation = true /\
  contains (py "ghost town") situation = true /\
  situation_score situation = 3 /\
  situation_score situation <> 4.
Proof. vm_compute. repeat split; discriminate. Qed.

(** C2, as the code has it.  For a date and a region name that are
    both non-empty strings, when the override table holds one of the
    three labels for them, the result is that label with its icon and
    colour, whatever the observation says. *)
Theorem override_dominates (risk_data : risk_table) (by_region : gmap pystr pystr)
    (region_data : observation) (region_name date_str level_fr : pystr) (a : alert) :
  date_str <> [] -> region_name <> [] ->
  risk_data !! date_str = Some by_region ->
  by_region !! region_name = Some level_fr ->
  from_risk_label level_fr = Some a ->
  calculate_alert_level risk_data region_data region_name date_str = a /\
  level a = level_fr.
Proof.
  intros Hd Hr Hm Hl Ha. split; [|exact (from_risk_label_level _ _ Ha)].
  unfold calculate_alert_level.
  rewrite (risk_lookup_entry _ _ _ _ _ Hd Hr Hm Hl). simpl. rewrite Ha. reflexivity.
Qed.

Lemma override_dominates_witness :
  calculate_alert_level risk_north_faible obs_north (py "North") d_2025_01_10 = FAIBLE /\
  level FAIBLE = py "Faible".
Proof.
  apply (override_dominates risk_north_faible {[ py "North" := py "Faible" ]});
    (discriminate || reflexivity).
Defined.

(** C2, as stated, fails: an override filed under the empty region
    name is not read, and the texts decide. *)
Lemma override_under_empty_name_ignored :
  risk_unnamed_faible !! d_2025_01_10 = Some {[ [] := py "Faible" ]} /\
  ({[ [] := py "Faible" ]} : gmap pystr pystr) !! ([] : pystr) = Some (py "Faible") /\
  calculate_alert_level risk_unnamed_faible obs_north [] d_2025_01_10 = ELEVE /\
  level (calculate_alert_level risk_unnamed_faible obs_north [] d_2025_01_10)
    <> py "Faible".
Proof. vm_compute. repeat split; discriminate. Qed.

(** C4.  When no override applies, the level follows the score through
    exact thresholds, and the result is exactly one of the three
    alerts. *)
Theorem score_thresholds (risk_data : risk_table) (region_data : observation)
    (region_name date_str : pystr) :
  risk_lookup risk_data region_name date_str ≫= from_risk_label = None ->
  let score := heuristic_score region_data in
  let r := calculate_alert_level risk_data region_data region_name date_str in
  (5 <= score -> r = ELEVE) /\
  (2 <= score < 5 -> r = MOYEN) /\
  (score < 2 -> r = FAIBLE) /\
  (score = 4 -> r = MOYEN) /\
  (score = 5 -> r = ELEVE) /\
  ((r = ELEVE /\ r <> MOYEN /\ r <> FAIBLE) \/
   (r <> ELEVE /\ r = MOYEN /\ r <> FAIBLE) \/
   (r <> ELEVE /\ r <> MOYEN /\ r = FAIBLE)).
Proof.
  intros Hno score r.
  assert (Hr : r = level_of_score score).
  { unfold r, calculate_alert_level. rewrite Hno. reflexivity. }
  destruct (level_of_score_cases score) as (H5 & H2 & H0).
  destruct alerts_distinct as (D1 & D2 & D3).
  rewrite Hr. repeat split.
  - exact H5.
  - exact H2.
  - exact H0.
  - intros ->. apply H2. lia.
  - intros ->. apply H5. lia.
  - destruct (Z_lt_le_dec score 2) as [Hlo|Hge2].
    + right. right. rewrite (H0 Hlo). repeat split; congruence.
    + destruct (Z_lt_le_dec score 5) as [Hmid|Hhi].
      * right. left. rewrite (H2 (conj Hge2 Hmid)). repeat split; congruence.
      * left. rewrite (H5 Hhi). repeat split; congruence.
Qed.

Lemma score_thresholds_witness :
  heuristic_score obs_ghost_town_only = 4 /\
  calculate_alert_level ∅ obs_ghost_town_only (py "North") d_2025_01_10 = MOYEN.
Proof.
  split; [reflexivity|].
  apply (score_thresholds ∅ obs_ghost_town_only (py "North") d_2025_01_10);
    reflexivity.
Defined.

(** C9.  An override entry whose label is none of "Élevé", "Moyen" and
    "Faible" is passed over without error: the result is the one the
    score gives. *)
Theorem unrecognised_label_falls_through (risk_data : risk_table)
    (by_region : gmap pystr pystr) (region_data : observation)
    (region_name date_str level_fr : pystr) :
  risk_data !! date_str = Some by_region ->
  by_region !! region_name = Some level_fr ->
  level_fr <> py "Élevé" -> level_fr <> py "Moyen" -> level_fr <> py "Faible" ->
  calculate_alert_level risk_data region_data region_name date_str
  = level_of_score (heuristic_score region_data).
Proof.
  intros Hm Hl H1 H2 H3. unfold calculate_alert_level, risk_lookup.
  destruct (truthy date_str && truthy region_name); [|reflexivity].
  rewrite Hm. simpl. rewrite Hl. simpl.
  rewrite (from_risk_label_none _ H1 H2 H3). reflexivity.
Qed.

Lemma unrecognised_label_falls_through_witness :
  calculate_alert_level risk_north_low obs_north (py "North") d_2025_01_10
  = level_of_score (heuristic_score obs_north) /\
  level_of_score (heuristic_score obs_north) = ELEVE.
Proof.
  split; [|reflexivity].
  apply (unrecognised_label_falls_through risk_north_low {[ py "North" := py "Low" ]}
           obs_north (py "North") d_2025_01_10 (py "Low"));
    (reflexivity || (vm_compute; discriminate)).
Defined.

End ClassifierFacts.

(** ** The row filter *)

Section FilterFacts.

Lemma filter_level_off (show : bool) (label : pystr) (l : list stat_row) (r : stat_row) :
  r ∈ (if negb show then filter (fun r => Niveau_d_alerte r ≠ label) l else l)
  <-> r ∈ l /\ (Niveau_d_alerte r = label -> show = true).
Proof.
  destruct show; simpl.
  - split; [intros H; split; [exact H | reflexivity] | intros [H _]; exact H].
  - rewrite list_elem_of_filter. split.
    + intros [Hne Hin]. split; [exact Hin | intros E; contradiction].
    + intros [Hin Himp]. split; [|exact Hin].
      intros E. specialize (Himp E). discriminate.
Qed.

Lemma filter_level_off_sublist (show : bool) (label : pystr) (l : list stat_row) :
  sublist (if negb show then filter (fun r => Niveau_d_alerte r ≠ label) l else l) l.
Proof. destruct show; simpl; [reflexivity | apply sublist_filter]. Qed.

Lemma filter_all (P : stat_row -> Prop) `{!forall r, Decision (P r)} (l : list stat_row) :
  (forall r, r ∈ l -> P r) -> filter P l = l.
Proof.
  induction l as [|x l IH]; intros Hall; [reflexivity|].
  rewrite filter_cons_True by (apply Hall; left).
  f_equal. apply IH. intros r Hr. apply Hall. right. exact Hr.
Qed.

Lemma filtered_df_elem (df_stats : list stat_row) (selected_regions : list pystr)
    (show_high show_medium show_low : bool) (r : stat_row) :
  r ∈ filtered_df df_stats selected_regions show_high show_medium show_low
  <-> r ∈ df_stats /\ Region r ∈ selected_regions
      /\ level_enabled show_high show_medium show_low r.
Proof.
  unfold filtered_df. cbv zeta.
  rewrite !filter_level_off, list_elem_of_filter.
  unfold level_enabled. tauto.
Qed.

(** C5, as the code has it.  The filter keeps, in their order, exactly
    the rows whose region is selected and whose level is ticked.  With
    the defaults of the sidebar (every region of the table selected,
    the three boxes ticked) every row passes; with no region selected
    no row does. *)
Theorem filtered_df_keeps (df_stats : list stat_row) (selected_regions : list pystr)
    (show_high show_medium show_low : bool) :
  (forall r,
     r ∈ filtered_df df_stats selected_regions show_high show_medium show_low
     <-> r ∈ df_stats /\ Region r ∈ selected_regions
         /\ level_enabled show_high show_medium show_low r) /\
  sublist (filtered_df df_stats selected_regions show_high show_medium show_low)
    df_stats /\
  filtered_df df_stats (map Region df_stats) true true true = df_stats /\
  filtered_df df_stats [] show_high show_medium show_low = [].
Proof.
  split; [|split; [|split]].
  - intros r. apply filtered_df_elem.
  - unfold filtered_df. cbv zeta.
    etransitivity; [apply filter_level_off_sublist|].
    etransitivity; [apply filter_level_off_sublist|].
    etransitivity; [apply filter_level_off_sublist|].
    apply sublist_filter.
  - unfold filtered_df. simpl. apply filter_all.
    intros r Hr. apply list_elem_of_fmap. exists r. split; [reflexivity | exact Hr].
  - destruct (filtered_df df_stats [] show_high show_medium show_low) as [|r l] eqn:E;
      [reflexivity|].
    assert (Hr : r ∈ filtered_df df_stats [] show_high show_medium show_low)
      by (rewrite E; left).
    apply filtered_df_elem in Hr as (_ & Hnil & _). inversion Hnil.
Qed.

(** C5, as stated, fails: with no region selected, a table of one row
    is filtered to nothing. *)
Lemma empty_selection_keeps_nothing :
  length df_north = 1%nat /\
  filtered_df df_north [] true true true = [].
Proof. split; reflexivity. Qed.

End FilterFacts.

(** ** The loader *)

Section LoaderFacts.

(** C6, as the code has it.  A missing file gives the empty dataset and
    an error message; a file that [json.load] rejects gives no
    dataset: the [JSONDecodeError] leaves the loader. *)
Theorem load_missing_and_malformed (now : date) :
  load_security_data_by_date Missing now
  = (Return (JObj []), [st_error (py "⚠️ Fichier security_data.json non trouvé")]) /\
  load_security_data_by_date Malformed now = (Raise JSONDecodeError, []).
Proof. split; reflexivity. Qed.

(** C6, as stated, fails: on a malformed source the loader does not
    return the empty dataset that it returns for a missing one. *)
Lemma malformed_source_raises :
  (load_security_data_by_date Malformed day_2025_01_10).1 = Raise JSONDecodeError /\
  (load_security_data_by_date Malformed day_2025_01_10).1
  <> (load_security_data_by_date Missing day_2025_01_10).1.
Proof. split; [reflexivity | discriminate]. Qed.

(** C8.  The loader looks at the first key of the object read.  When
    the key has 10 characters with a hyphen at positions 4 and 7 the
    object is returned as it is; otherwise, also when the object is
    empty, it is returned as the single snapshot of today's date. *)
Theorem load_detects_date_keys (now : date) (members : list (pystr * json)) :
  (forall k v rest,
     members = (k, v) :: rest ->
     len k = 10 -> k !! 4%nat = Some 45 -> k !! 7%nat = Some 45 ->
     load_security_data_by_date (Parsed (JObj members)) now
     = (Return (JObj members), [])) /\
  (forall k v rest,
     members = (k, v) :: rest ->
     ~ (len k = 10 /\ k !! 4%nat = Some 45 /\ k !! 7%nat = Some 45) ->
     load_security_data_by_date (Parsed (JObj members)) now
     = (Return (JObj [(strftime_iso now, JObj members)]), [])) /\
  (members = [] ->
     load_security_data_by_date (Parsed (JObj members)) now
     = (Return (JObj [(strftime_iso now, JObj [])]), [])).
Proof.
  repeat split.
  - intros k v rest -> Hlen H4 H7.
    unfold load_security_data_by_date, load_body. simpl.
    assert (Hd : looks_like_date k = true).
    { unfold looks_like_date. destruct k; [discriminate|].
      rewrite Hlen, !bool_decide_eq_true_2 by assumption. reflexivity. }
    rewrite Hd. reflexivity.
  - intros k v rest -> Hnot.
    unfold load_security_data_by_date, load_body. simpl.
    assert (Hd : looks_like_date k = false).
    { unfold looks_like_date. apply not_true_is_false. intros Ht.
      apply Hnot. apply andb_prop in Ht as [Ht H7]. apply andb_prop in Ht as [Ht H4].
      apply andb_prop in Ht as [_ Hlen].
      apply bool_decide_eq_true_1 in H4, H7. apply Z.eqb_eq in Hlen. tauto. }
    rewrite Hd. reflexivity.
  - intros ->. reflexivity.
Qed.

Lemma load_detects_date_keys_witness :
  load_security_data_by_date
    (Parsed (JObj [(d_2025_01_10, JObj [(py "North", JObj [])])])) day_2025_01_10
  = (Return (JObj [(d_2025_01_10, JObj [(py "North", JObj [])])]), []) /\
  load_security_data_by_date (Parsed (JObj [(py "North", JObj [])])) day_2025_01_10
  = (Return (JObj [(d_2025_01_10, JObj [(py "North", JObj [])])]), []).
Proof.
  split.
  - eapply (proj1 (load_detects_date_keys day_2025_01_10 _)); reflexivity.
  - eapply (proj1 (proj2 (load_detects_date_keys day_2025_01_10 _)));
      [reflexivity | vm_compute; intros (H & _); discriminate H].
Defined.

End LoaderFacts.

(** ** The banking page *)

Section BankingFacts.

Lemma variant_of_three (v : pystr) (a b c : Z) :
  case_variant v [a; b; c] ->
  exists x y z, v = [x; y; z] /\ same_letter x a /\ same_letter y b /\ same_letter z c.
Proof.
  intros H. inversion H as [|x a' v1 w1 Hx H1]; subst.
  inversion H1 as [|y b' v2 w2 Hy H2]; subst.
  inversion H2 as [|z c' v3 w3 Hz H3]; subst.
  inversion H3; subst. eauto 8.
Qed.

Lemma normalize_spaced (pre post : pystr) (x y z : Z) :
  isspace x = false -> isspace z = false ->
  Forall (fun c => isspace c = true) pre ->
  Forall (fun c => isspace c = true) post ->
  normalize_ouvert (Some (pre ++ [x; y; z] ++ post))
  = ouvert_labels !! lower [x; y; z].
Proof.
  intros Hx Hz Hpre Hpost.
  change (ouvert_labels !! lower (strip (pre ++ (x :: [y] ++ [z]) ++ post))
          = ouvert_labels !! lower [x; y; z]).
  rewrite (strip_spaces pre [y] post x z Hx Hz Hpre Hpost). reflexivity.
Qed.

(** C10.  Whatever the case of its letters and the white space before
    and after it, "oui" becomes "Oui" and "non" becomes "Non". *)
Theorem ouvert_variants_fold (s : pystr) :
  (spaced_variant s (py "oui") -> normalize_ouvert (Some s) = Some (py "Oui")) /\
  (spaced_variant s (py "non") -> normalize_ouvert (Some s) = Some (py "Non")).
Proof.
  split; intros (pre & v & post & -> & Hpre & Hpost & Hv);
    apply variant_of_three in Hv as (x & y & z & -> & Hx & Hy & Hz);
    destruct Hx as [-> | ->], Hy as [-> | ->], Hz as [-> | ->];
    rewrite normalize_spaced by (assumption || reflexivity);
    reflexivity.
Qed.

Lemma ouvert_variants_fold_witness :
  normalize_ouvert (Some ([32; 9] ++ py "OuI" ++ [160; 10])) = Some (py "Oui") /\
  normalize_ouvert (Some (py "NON" ++ [32])) = Some (py "Non").
Proof.
  split.
  - apply (proj1 (ouvert_variants_fold _)).
    exists [32; 9], (py "OuI"), [160; 10]. repeat split.
    + repeat constructor.
    + repeat constructor.
    + repeat (constructor; [(left; reflexivity) || (right; reflexivity)|]). constructor.
  - apply (proj2 (ouvert_variants_fold _)).
    exists [], (py "NON"), [32]. repeat split.
    + constructor.
    + repeat constructor.
    + repeat (constructor; [(left; reflexivity) || (right; reflexivity)|]). constructor.
Defined.

End BankingFacts.

(** ** Calendar dates *)

Section CalendarFacts.

Lemma valid_date_bounds (d : date) :
  valid_date d = true ->
  1 <= year d <= 9999 /\ 1 <= month d <= 12 /\
  1 <= day d <= days_in_month (year d) (month d).
Proof.
  unfold valid_date. rewrite !andb_true_iff, !Z.leb_le. tauto.
Qed.

Lemma month_cases (m : Z) :
  1 <= m <= 12 ->
  m = 1 \/ m = 2 \/ m = 3 \/ m = 4 \/ m = 5 \/ m = 6 \/
  m = 7 \/ m = 8 \/ m = 9 \/ m = 10 \/ m = 11 \/ m = 12.
Proof. lia. Qed.

Ltac each_month m H :=
  destruct (month_cases m H) as
    [->|[->|[->|[->|[->|[->|[->|[->|[->|[->|[->| ->]]]]]]]]]]].

Lemma digit_digit_cp (n : Z) : digit (digit_cp n) = Some (n mod 10).
Proof.
  unfold digit, digit_cp.
  pose proof (Z.mod_pos_bound n 10 ltac:(lia)).
  replace ((48 <=? 48 + n mod 10) && (48 + n mod 10 <=? 57)) with true
    by (symmetry; apply andb_true_iff; split; apply Z.leb_le; lia).
  f_equal. lia.
Qed.

Lemma digit_cp_not_hyphen (n : Z) : (digit_cp n =? 45) = false.
Proof.
  unfold digit_cp. pose proof (Z.mod_pos_bound n 10 ltac:(lia)).
  apply Z.eqb_neq. lia.
Qed.

Lemma digit_cp_not_space (n : Z) : (digit_cp n =? 32) = false.
Proof.
  unfold digit_cp. pose proof (Z.mod_pos_bound n 10 ltac:(lia)).
  apply Z.eqb_neq. lia.
Qed.

(** Reading back a date that was written in ISO form. *)
Lemma strptime_strftime_iso (d : date) :
  valid_date d = true -> strptime (strftime_iso d) = Some d.
Proof.
  intros Hv. pose proof (valid_date_bounds d Hv) as (Hy & Hm & Hd).
  assert (Hd31 : day d <= 31).
  { revert Hd. unfold days_in_month. each_month (month d) Hm;
      try destruct (is_leap (year d)); lia. }
  unfold strptime, strftime_iso, four_digits, two_digits.
  cbn [app split_on]. rewrite !digit_cp_not_hyphen. cbn [Z.eqb Pos.eqb].
  cbn [year_field short_field day_field]. rewrite digit_cp_not_space.
  cbn [short_field]. rewrite !digit_digit_cp. cbn [mbind option_bind].
  replace (1000 * ((year d / 1000) mod 10) + 100 * ((year d / 100) mod 10)
           + 10 * ((year d / 10) mod 10) + year d mod 10) with (year d)
    by (clear -Hy; Z.div_mod_to_equations; lia).
  replace (10 * ((month d / 10) mod 10) + month d mod 10) with (month d)
    by (clear -Hm; Z.div_mod_to_equations; lia).
  replace (10 * ((day d / 10) mod 10) + day d mod 10) with (day d)
    by (clear -Hd Hd31; Z.div_mod_to_equations; lia).
  destruct d as [y m dd]. cbn [year month day]. rewrite Hv. reflexivity.
Qed.

Ltac by_compare :=
  repeat match goal with
         | |- context [?x ?= ?y] => destruct (Z.compare_spec x y)
         end;
  try reflexivity; exfalso; Z.div_mod_to_equations; lia.

Lemma compare_four_digits (a b : Z) (s t : pystr) :
  0 <= a <= 9999 -> 0 <= b <= 9999 ->
  str_compare (four_digits a ++ s) (four_digits b ++ t)
  = match a ?= b with Eq => str_compare s t | c => c end.
Proof.
  intros Ha Hb. unfold four_digits, digit_cp. cbn [app str_compare].
  rewrite !Z.add_compare_mono_l. by_compare.
Qed.

Lemma compare_two_digits (a b : Z) (s t : pystr) :
  0 <= a <= 99 -> 0 <= b <= 99 ->
  str_compare (two_digits a ++ s) (two_digits b ++ t)
  = match a ?= b with Eq => str_compare s t | c => c end.
Proof.
  intros Ha Hb. unfold two_digits, digit_cp. cbn [app str_compare].
  rewrite !Z.add_compare_mono_l. by_compare.
Qed.

Lemma days_in_month_bound (y m : Z) : days_in_month y m <= 31.
Proof.
  unfold days_in_month.
  repeat match goal with
         | |- context [match ?x with _ => _ end] => destruct x
         end; lia.
Qed.

(** ISO dates compare as strings the way their fields compare. *)
Lemma compare_strftime_iso (d1 d2 : date) :
  valid_date d1 = true -> valid_date d2 = true ->
  str_compare (strftime_iso d1) (strftime_iso d2)
  = match year d1 ?= year d2 with
    | Eq => match month d1 ?= month d2 with
            | Eq => day d1 ?= day d2
            | c => c
            end
    | c => c
    end.
Proof.
  intros H1 H2.
  pose proof (valid_date_bounds d1 H1) as (Hy1 & Hm1 & Hd1).
  pose proof (valid_date_bounds d2 H2) as (Hy2 & Hm2 & Hd2).
  pose proof (days_in_month_bound (year d1) (month d1)).
  pose proof (days_in_month_bound (year d2) (month d2)).
  unfold strftime_iso.
  rewrite compare_four_digits by lia.
  cbn [app str_compare Z.compare Pos.compare Pos.compare_cont].
  rewrite compare_two_digits by lia.
  cbn [app str_compare Z.compare Pos.compare Pos.compare_cont].
  rewrite <- (app_nil_r (two_digits (day d1))), <- (app_nil_r (two_digits (day d2))).
  rewrite compare_two_digits by lia.
  cbn [str_compare].
  destruct (year d1 ?= year d2); [|reflexivity..].
  destruct (month d1 ?= month d2); [|reflexivity..].
  destruct (day d1 ?= day d2); reflexivity.
Qed.

Lemma is_leap_cases (y : Z) :
  (is_leap y = true /\ y mod 4 = 0 /\ (y mod 100 <> 0 \/ y mod 400 = 0)) \/
  (is_leap y = false /\ (y mod 4 <> 0 \/ (y mod 100 = 0 /\ y mod 400 <> 0))).
Proof.
  unfold is_leap.
  destruct (Z.eqb_spec (y mod 4) 0), (Z.eqb_spec (y mod 100) 0),
    (Z.eqb_spec (y mod 400) 0); simpl; tauto.
Qed.

Lemma days_before_next_year (y : Z) :
  days_before_year (y + 1)
  = days_before_year y + 365 + (if is_leap y then 1 else 0).
Proof.
  unfold days_before_year. cbv zeta.
  replace (y + 1 - 1) with y by lia.
  destruct (is_leap_cases y) as [(-> & H4 & H100) | (-> & H)];
    Z.div_mod_to_equations; lia.
Qed.

Lemma days_before_year_mono (y1 y2 : Z) :
  y1 <= y2 -> days_before_year y1 <= days_before_year y2.
Proof.
  intros H. unfold days_before_year. cbv zeta.
  Z.div_mod_to_equations. lia.
Qed.

Lemma day_within_year (d : date) :
  valid_date d = true ->
  1 <= days_before_month (year d) (month d) + day d
    <= 365 + (if is_leap (year d) then 1 else 0).
Proof.
  intros Hv. pose proof (valid_date_bounds d Hv) as (_ & Hm & Hd).
  revert Hd. unfold days_before_month, days_in_month.
  each_month (month d) Hm; cbn [Z.ltb Z.compare Pos.compare Pos.compare_cont andb];
    destruct (is_leap (year d)); lia.
Qed.

Lemma days_before_month_mono (y m1 m2 : Z) :
  1 <= m1 -> m1 < m2 -> m2 <= 12 ->
  days_before_month y m1 + days_in_month y m1 <= days_before_month y m2.
Proof.
  intros H1 H12 H2.
  assert (Hm1 : 1 <= m1 <= 12) by lia. assert (Hm2 : 1 <= m2 <= 12) by lia.
  unfold days_before_month, days_in_month.
  each_month m1 Hm1; each_month m2 Hm2; try lia;
    cbn [Z.ltb Z.compare Pos.compare Pos.compare_cont andb];
    destruct (is_leap y); lia.
Qed.

(** [toordinal] orders the days of the calendar as their fields do. *)
Lemma compare_toordinal (d1 d2 : date) :
  valid_date d1 = true -> valid_date d2 = true ->
  (toordinal d1 ?= toordinal d2)
  = match year d1 ?= year d2 with
    | Eq => match month d1 ?= month d2 with
            | Eq => day d1 ?= day d2
            | c => c
            end
    | c => c
    end.
Proof.
  intros H1 H2.
  pose proof (valid_date_bounds d1 H1) as (Hy1 & Hm1 & Hd1).
  pose proof (valid_date_bounds d2 H2) as (Hy2 & Hm2 & Hd2).
  pose proof (day_within_year d1 H1) as W1.
  pose proof (day_within_year d2 H2) as W2.
  unfold toordinal.
  destruct (Z.compare_spec (year d1) (year d2)) as [Ey|Ly|Ly].
  - rewrite Ey in *.
    destruct (Z.compare_spec (month d1) (month d2)) as [Em|Lm|Lm].
    + rewrite Em. rewrite Z.add_compare_mono_l. reflexivity.
    + pose proof (days_before_month_mono (year d2) (month d1) (month d2)).
      apply Z.compare_lt_iff. lia.
    + pose proof (days_before_month_mono (year d2) (month d2) (month d1)).
      apply Z.compare_gt_iff. lia.
  - pose proof (days_before_next_year (year d1)).
    pose proof (days_before_year_mono (year d1 + 1) (year d2)).
    apply Z.compare_lt_iff. lia.
  - pose proof (days_before_next_year (year d2)).
    pose proof (days_before_year_mono (year d2 + 1) (year d1)).
    apply Z.compare_gt_iff. lia.
Qed.

(** On ISO dates the order of the strings is the order of the days. *)
Lemma str_ltb_strftime_iso (d1 d2 : date) :
  valid_date d1 = true -> valid_date d2 = true ->
  str_ltb (strftime_iso d1) (strftime_iso d2) = (toordinal d1 <? toordinal d2).
Proof.
  intros H1 H2. unfold str_ltb, Z.ltb.
  rewrite compare_strftime_iso, compare_toordinal by assumption. reflexivity.
Qed.

End CalendarFacts.

(** ** Sorting and minimum *)

Section BuiltinsFacts.

Context {A : Type}.

Lemma insert_sorted_perm (lt : A -> A -> bool) (x : A) (l : list A) :
  insert_sorted lt x l ≡ₚ x :: l.
Proof.
  induction l as [|y l IH]; simpl; [reflexivity|].
  destruct (lt y x); [|reflexivity].
  rewrite IH. apply Permutation_swap.
Qed.

Lemma sort_by_perm (lt : A -> A -> bool) (l : list A) : sort_by lt l ≡ₚ l.
Proof.
  induction l as [|x l IH]; [reflexivity|].
  change (sort_by lt (x :: l)) with (insert_sorted lt x (sort_by lt l)).
  rewrite insert_sorted_perm, IH. reflexivity.
Qed.

Lemma insert_sorted_sorted (lt : A -> A -> bool) (key : A -> Z) (x : A) (l : list A) :
  (forall y, y ∈ l -> lt y x = (key y <? key x)) ->
  StronglySorted (fun a b => key a <= key b) l ->
  StronglySorted (fun a b => key a <= key b) (insert_sorted lt x l).
Proof.
  intros Hlt Hs. induction Hs as [|y l Hs IH Hy]; simpl.
  - repeat constructor.
  - rewrite (Hlt y) by left.
    destruct (Z.ltb_spec (key y) (key x)) as [Hyx|Hxy].
    + constructor.
      * apply IH. intros z Hz. apply Hlt. right. exact Hz.
      * apply Forall_forall. intros z Hz.
        rewrite insert_sorted_perm in Hz. apply elem_of_cons in Hz as [-> | Hz]; [lia|].
        rewrite Forall_forall in Hy. apply Hy. exact Hz.
    + constructor; [constructor; assumption|].
      constructor; [exact Hxy|].
      rewrite Forall_forall in Hy |- *. intros z Hz. specialize (Hy z Hz). lia.
Qed.

(** A list sorted by [lt] is in the order of any key that [lt]
    compares. *)
Lemma sort_by_sorted (lt : A -> A -> bool) (key : A -> Z) (l : list A) :
  (forall a b, a ∈ l -> b ∈ l -> lt a b = (key a <? key b)) ->
  StronglySorted (fun a b => key a <= key b) (sort_by lt l).
Proof.
  induction l as [|x l IH]; intros Hlt; [constructor|].
  change (sort_by lt (x :: l)) with (insert_sorted lt x (sort_by lt l)).
  apply insert_sorted_sorted.
  - intros y Hy. rewrite sort_by_perm in Hy. apply Hlt; [right; exact Hy | left].
  - apply IH. intros a b Ha Hb. apply Hlt; right; assumption.
Qed.

(** [min_loop] stops on the first of the smallest keys. *)
Lemma min_loop_first (best : A * Z) (l : list (A * Z)) :
  exists l1 l2,
    best :: l = l1 ++ min_loop best l :: l2 /\
    (forall x, x ∈ l1 -> (min_loop best l).2 < x.2) /\
    (forall x, x ∈ l2 -> (min_loop best l).2 <= x.2).
Proof.
  revert best. induction l as [|x l IH]; intros best.
  - exists [], []. simpl. split; [reflexivity|]. split; intros x Hx; inversion Hx.
  - simpl. destruct (Z.ltb_spec x.2 best.2) as [Hlt|Hge].
    + destruct (IH x) as (l1 & l2 & E & H1 & H2).
      exists (best :: l1), l2. split; [simpl; rewrite E; reflexivity|].
      split; [|exact H2].
      intros y Hy. apply elem_of_cons in Hy as [-> | Hy]; [|apply H1; exact Hy].
      destruct l1 as [|z l1].
      * simpl in E. injection E as E _. rewrite <- E. exact Hlt.
      * simpl in E. injection E as E _. subst z.
        specialize (H1 x ltac:(left)). lia.
    + destruct (IH best) as (l1 & l2 & E & H1 & H2).
      destruct l1 as [|z l1].
      * simpl in E. injection E as E El. subst l2. exists [], (x :: l).
        rewrite <- E in H2 |- *. split; [reflexivity|].
        split; [intros y Hy; inversion Hy|].
        intros y Hy. apply elem_of_cons in Hy as [-> | Hy]; [exact Hge|].
        apply H2. exact Hy.
      * simpl in E. injection E as E El. subst z.
        exists (best :: x :: l1), l2. split; [simpl; do 2 f_equal; exact El|].
        split; [|exact H2].
        pose proof (H1 best ltac:(left)) as Hb.
        intros y Hy. apply elem_of_cons in Hy as [-> | Hy]; [exact Hb|].
        apply elem_of_cons in Hy as [-> | Hy]; [lia|].
        apply H1. right. exact Hy.
Qed.

(** [min] with a key returns the first element of the smallest key. *)
Lemma min_key_first (key : A -> option Z) (l : list A) (c : A) :
  min_key key l = Some c ->
  exists l1 l2 kc,
    l = l1 ++ c :: l2 /\ key c = Some kc /\
    (forall x, x ∈ l1 -> exists kx, key x = Some kx /\ kc < kx) /\
    (forall x, x ∈ l2 -> exists kx, key x = Some kx /\ kc <= kx).
Proof.
  unfold min_key. intros H.
  destruct (mapM _ l) as [keyed|] eqn:HM; [|discriminate]. simpl in H.
  apply mapM_Some in HM.
  destruct keyed as [|b keyed]; [discriminate|]. injection H as H.
  destruct (min_loop_first b keyed) as (k1 & k2 & E & H1 & H2).
  rewrite E in HM.
  apply Forall2_app_inv_r in HM as (l1 & l' & HF1 & HF & ->).
  apply Forall2_cons_inv_r in HF as (c' & l2 & Hc & HF2 & ->).
  destruct (key c') as [kc|] eqn:Kc; [|discriminate]. simpl in Hc.
  injection Hc as Hc. rewrite <- Hc in H, H1, H2. simpl in H, H1, H2. subst c'.
  exists l1, l2, kc. split; [reflexivity|]. split; [exact Kc|].
  split; intros x Hx.
  - apply list_elem_of_lookup in Hx as [i Hi].
    destruct (Forall2_lookup_l _ _ _ _ _ HF1 Hi) as (p & Hp & Hk).
    destruct (key x) as [kx|]; [|discriminate]. simpl in Hk. injection Hk as <-.
    exists kx. split; [reflexivity|].
    apply (H1 (x, kx)). apply list_elem_of_lookup. eauto.
  - apply list_elem_of_lookup in Hx as [i Hi].
    destruct (Forall2_lookup_l _ _ _ _ _ HF2 Hi) as (p & Hp & Hk).
    destruct (key x) as [kx|]; [|discriminate]. simpl in Hk. injection Hk as <-.
    exists kx. split; [reflexivity|].
    apply (H2 (x, kx)). apply list_elem_of_lookup. eauto.
Qed.

(** [min] returns when the list is not empty and no key raises. *)
Lemma min_key_is_Some (key : A -> option Z) (l : list A) :
  l <> [] -> (forall x, x ∈ l -> is_Some (key x)) -> is_Some (min_key key l).
Proof.
  intros Hne Hk. unfold min_key.
  assert (HM : is_Some (mapM (fun x => k ← key x; Some (x, k)) l)).
  { apply mapM_is_Some. apply Forall_forall. intros x Hx.
    destruct (Hk x Hx) as [k Hkx]. simpl. rewrite Hkx. simpl. eauto. }
  destruct HM as [keyed HM]. rewrite HM. simpl.
  destruct keyed as [|b keyed]; [|eauto].
  apply mapM_Some in HM. inversion HM; subst. contradiction.
Qed.

End BuiltinsFacts.

(** ** The closest available date *)

Section DateIndexFacts.

Lemma iso_date_parses (s : pystr) :
  iso_date s -> exists d, valid_date d = true /\ s = strftime_iso d /\ strptime s = Some d.
Proof.
  intros (d & Hv & _ & ->). exists d. split; [exact Hv|]. split; [reflexivity|].
  apply strptime_strftime_iso. exact Hv.
Qed.

Lemma select_date_missing (available : list pystr) (selected_date_obj now : date) :
  available <> [] ->
  (forall d, d ∈ available -> is_Some (strptime d)) ->
  strftime_iso selected_date_obj ∉ available ->
  select_date available selected_date_obj now
  = closest_date available (strftime_iso selected_date_obj).
Proof.
  intros Hne Hparse Hmiss. unfold select_date.
  destruct available as [|a available']; [contradiction|].
  assert (HM : is_Some (mapM strptime (a :: available'))).
  { apply mapM_is_Some. apply Forall_forall. exact Hparse. }
  destruct HM as [objs ->]. simpl.
  rewrite bool_decide_eq_false_2 by exact Hmiss. reflexivity.
Qed.

(** The index is in descending order of the days. *)
Lemma available_dates_descending (all_security_data : store) :
  Forall iso_date (Dict.keys all_security_data) ->
  StronglySorted
    (fun a b => forall x y, strptime a = Some x -> strptime b = Some y ->
                            toordinal y <= toordinal x)
    (available_dates all_security_data).
Proof.
  intros Hiso. rewrite Forall_forall in Hiso.
  pose (key := fun s : pystr =>
                 match strptime s with Some d => - toordinal d | None => 0 end).
  assert (Hs : StronglySorted (fun a b => key a <= key b)
                 (available_dates all_security_data)).
  { apply sort_by_sorted. intros a b Ha Hb.
    destruct (iso_date_parses a (Hiso a Ha)) as (da & Va & -> & Pa).
    destruct (iso_date_parses b (Hiso b Hb)) as (db & Vb & -> & Pb).
    unfold key. rewrite Pa, Pb, str_ltb_strftime_iso by assumption.
    destruct (Z.ltb_spec (toordinal db) (toordinal da)),
      (Z.ltb_spec (- toordinal da) (- toordinal db)); (reflexivity || lia). }
  induction Hs as [|a l Hs IH Ha]; constructor; [exact IH|].
  eapply Forall_impl; [exact Ha|].
  intros b Hab x y Hx Hy. unfold key in Hab. rewrite Hx, Hy in Hab. lia.
Qed.

(** C3, as the code has it.  When the day picked has no snapshot, the
    date shown is an available date at the smallest distance in days
    from it; of two available dates at that distance the later one is
    shown, the index being scanned from the latest date. *)
Theorem closest_date_nearest_then_later (all_security_data : store)
    (selected_date_obj now : date) :
  Dict.keys all_security_data <> [] ->
  Forall iso_date (Dict.keys all_security_data) ->
  valid_date selected_date_obj = true ->
  1000 <= year selected_date_obj ->
  strftime_iso selected_date_obj ∉ Dict.keys all_security_data ->
  exists closest c,
    select_date (available_dates all_security_data) selected_date_obj now
    = Some closest /\
    closest ∈ Dict.keys all_security_data /\
    strptime closest = Some c /\
    forall other o,
      other ∈ Dict.keys all_security_data -> strptime other = Some o ->
      let distance d := Z.abs (toordinal d - toordinal selected_date_obj) in
      distance c <= distance o /\
      (distance o = distance c -> toordinal o <= toordinal c).
Proof.
  intros Hne Hiso Hv _ Hmiss.
  pose proof (available_dates_descending all_security_data Hiso) as Hsorted.
  assert (Hperm : available_dates all_security_data ≡ₚ Dict.keys all_security_data)
    by apply sort_by_perm.
  rewrite Forall_forall in Hiso.
  assert (Hparse : forall d, d ∈ available_dates all_security_data ->
                             is_Some (strptime d)).
  { intros d Hd. rewrite Hperm in Hd.
    destruct (iso_date_parses d (Hiso d Hd)) as (x & _ & _ & ->). eauto. }
  assert (Hsel : strptime (strftime_iso selected_date_obj) = Some selected_date_obj)
    by (apply strptime_strftime_iso; exact Hv).
  assert (Hdist : forall d x, strptime d = Some x ->
            day_distance (strftime_iso selected_date_obj) d
            = Some (Z.abs (toordinal x - toordinal selected_date_obj))).
  { intros d x Hx. unfold day_distance. rewrite Hx, Hsel. reflexivity. }
  rewrite select_date_missing; cycle 1.
  { intros E. rewrite E in Hperm. symmetry in Hperm.
    apply Permutation_nil_r in Hperm. contradiction. }
  { exact Hparse. }
  { rewrite Hperm. exact Hmiss. }
  unfold closest_date.
  destruct (min_key_is_Some (day_distance (strftime_iso selected_date_obj))
              (available_dates all_security_data)) as [closest Hmin].
  { intros E. rewrite E in Hperm. symmetry in Hperm.
    apply Permutation_nil_r in Hperm. contradiction. }
  { intros d Hd. destruct (Hparse d Hd) as [x Hx]. rewrite (Hdist d x Hx). eauto. }
  destruct (min_key_first _ _ _ Hmin) as (l1 & l2 & kc & El & Kc & H1 & H2).
  assert (Hin : closest ∈ available_dates all_security_data)
    by (rewrite El; apply elem_of_app; right; left).
  destruct (Hparse closest Hin) as [c Hc].
  rewrite (Hdist closest c Hc) in Kc. injection Kc as Kc.
  exists closest, c. split; [exact Hmin|].
  split; [rewrite <- Hperm; exact Hin|]. split; [exact Hc|].
  intros other o Ho Po. cbv zeta.
  rewrite <- Hperm, El in Ho.
  apply elem_of_app in Ho as [Ho | Ho]; [|apply elem_of_cons in Ho as [-> | Ho]].
  - destruct (H1 other Ho) as (kx & Kx & Hlt).
    rewrite (Hdist other o Po) in Kx. injection Kx as Kx. lia.
  - rewrite Hc in Po. injection Po as ->. lia.
  - destruct (H2 other Ho) as (kx & Kx & Hle).
    rewrite (Hdist other o Po) in Kx. injection Kx as Kx.
    split; [lia|]. intros _.
    rewrite El in Hsorted. apply StronglySorted_app_1_r in Hsorted.
    apply StronglySorted_cons in Hsorted as [Hall _].
    rewrite Forall_forall in Hall. exact (Hall other Ho c o Hc Po).
Qed.

Lemma closest_date_nearest_then_later_witness :
  exists closest c,
    select_date (available_dates store_10_12)
      {| year := 2025; month := 1; day := 11 |} day_2025_01_10 = Some closest /\
    closest ∈ Dict.keys store_10_12 /\
    strptime closest = Some c /\
    forall other o,
      other ∈ Dict.keys store_10_12 -> strptime other = Some o ->
      let distance d :=
        Z.abs (toordinal d - toordinal {| year := 2025; month := 1; day := 11 |}) in
      distance c <= distance o /\
      (distance o = distance c -> toordinal o <= toordinal c).
Proof.
  apply (closest_date_nearest_then_later store_10_12).
  - discriminate.
  - repeat constructor.
    + exists {| year := 2025; month := 1; day := 10 |}. repeat split; vm_compute; discriminate.
    + exists {| year := 2025; month := 1; day := 12 |}. repeat split; vm_compute; discriminate.
  - reflexivity.
  - vm_compute. discriminate.
  - vm_compute. intros H. repeat (inversion H as [|? ? ? H']; subst; clear H; rename H' into H).
Defined.

(** C3, as stated, fails on the tie: with snapshots for 10 and 12
    January only, the day picked being 11 January, both are one day
    away and the later one, 12 January, is shown. *)
Lemma tie_goes_to_later_date :
  strftime_iso {| year := 2025; month := 1; day := 11 |} = d_2025_01_11 /\
  (d_2025_01_11 ∉ Dict.keys store_10_12) /\
  day_distance d_2025_01_11 d_2025_01_10 = Some 1 /\
  day_distance d_2025_01_11 d_2025_01_12 = Some 1 /\
  (toordinal <$> strptime d_2025_01_10) = Some 739261 /\
  (toordinal <$> strptime d_2025_01_12) = Some 739263 /\
  select_date (available_dates store_10_12)
    {| year := 2025; month := 1; day := 11 |} day_2025_01_10 = Some d_2025_01_12 /\
  d_2025_01_12 <> d_2025_01_10.
Proof.
  repeat split; try reflexivity; try discriminate.
  vm_compute. intros H.
  repeat (inversion H as [|? ? ? H']; subst; clear H; rename H' into H).
Qed.

(** The scenario of the specification: 10 January is chosen over
    9 January for 11 January. *)
Example closest_of_09_and_10 :
  select_date (available_dates store_09_10)
    {| year := 2025; month := 1; day := 11 |} day_2025_01_10 = Some d_2025_01_10.
Proof. reflexivity. Qed.

End DateIndexFacts.

(** ** The series across dates *)

Section SeriesFacts.

Lemma append_date_rows_eq (risk_data : risk_table) (all_security_data : store)
    (date_str : pystr) (regions : list pystr) (acc : list comparison_row) :
  is_Some (strptime date_str) ->
  append_date_rows risk_data (data_for all_security_data date_str) date_str regions acc
  = Some (acc ++ date_rows risk_data all_security_data regions date_str).
Proof.
  intros [d Hd]. revert acc.
  induction regions as [|region regions IH]; intros acc.
  - simpl. rewrite app_nil_r. reflexivity.
  - unfold date_rows. simpl.
    destruct (Dict.get region (data_for all_security_data date_str)) as [info|];
      simpl; [|apply IH].
    destruct (calculate_alert_level risk_data info region date_str)
      as [[lvl icon] color] eqn:Hc.
    unfold display_date. rewrite Hd. simpl.
    rewrite IH, <- app_assoc. unfold date_rows, display_date. rewrite Hd.
    reflexivity.
Qed.

Lemma append_comparison_dates_eq (risk_data : risk_table) (all_security_data : store)
    (dates regions : list pystr) (acc : list comparison_row) :
  (forall d, d ∈ dates -> is_Some (strptime d)) ->
  append_comparison_dates risk_data all_security_data dates regions acc
  = Some (acc ++ concat (map (date_rows risk_data all_security_data regions) dates)).
Proof.
  revert acc. induction dates as [|d dates IH]; intros acc Hp.
  - simpl. rewrite app_nil_r. reflexivity.
  - simpl.
    change (default [] (Dict.get d all_security_data))
      with (data_for all_security_data d).
    rewrite append_date_rows_eq by (apply Hp; left). simpl.
    rewrite IH by (intros x Hx; apply Hp; right; exact Hx).
    rewrite <- app_assoc. reflexivity.
Qed.

Lemma date_rows_elem (risk_data : risk_table) (all_security_data : store)
    (regions : list pystr) (date_str : pystr) (r : comparison_row) :
  r ∈ date_rows risk_data all_security_data regions date_str ->
  display_date date_str = Some (c_Date r) /\
  c_Region r ∈ regions /\
  exists info,
    Dict.get (c_Region r) (data_for all_security_data date_str) = Some info /\
    c_Niveau r = level (calculate_alert_level risk_data info (c_Region r) date_str).
Proof.
  unfold date_rows. intros H. apply list_elem_of_omap in H as (region & Hin & H).
  destruct (Dict.get region (data_for all_security_data date_str)) as [info|] eqn:G;
    [|discriminate].
  simpl in H. destruct (display_date date_str) as [shown|]; [|discriminate].
  simpl in H. injection H as <-. simpl. eauto.
Qed.

Lemma level_is_label (risk_data : risk_table) (info : observation)
    (region date_str : pystr) :
  level (calculate_alert_level risk_data info region date_str)
  ∈ [py "Élevé"; py "Moyen"; py "Faible"].
Proof.
  unfold calculate_alert_level.
  destruct (risk_lookup risk_data region date_str ≫= from_risk_label) as [a|] eqn:E.
  - destruct (risk_lookup risk_data region date_str) as [l|]; [|discriminate].
    simpl in E. rewrite (from_risk_label_level l a E).
    unfold from_risk_label in E.
    repeat case_bool_decide; try discriminate; subst l; set_solver.
  - unfold level_of_score.
    destruct (_ >=? 5); [|destruct (_ >=? 2)]; vm_compute; set_solver.
Qed.

Lemma append_evo_rows_Forall (P : evo_row -> Prop) (risk_data : risk_table)
    (date_str : pystr) (regions : list pystr) (rows : list evo_row) :
  Forall P rows ->
  (forall region lvl,
     risk_get risk_data date_str region = Some lvl -> truthy lvl = true ->
     P {| e_Date := date_obj date_str; e_Region := region;
          e_Niveau := lvl; e_Score := score_map !! lvl |}) ->
  Forall P (append_evo_rows risk_data date_str regions rows).
Proof.
  intros Hrows Hnew. revert rows Hrows.
  induction regions as [|region regions IH]; intros rows Hrows; simpl; [exact Hrows|].
  destruct (risk_get risk_data date_str region) as [lvl|] eqn:G; [|apply IH; exact Hrows].
  destruct (truthy lvl) eqn:T; [|apply IH; exact Hrows].
  apply IH. apply Forall_app. split; [exact Hrows|].
  constructor; [|constructor]. apply Hnew; assumption.
Qed.

Lemma append_evo_dates_Forall (P : evo_row -> Prop) (risk_data : risk_table)
    (dates regions : list pystr) (rows : list evo_row) :
  Forall P rows ->
  (forall date_str region lvl,
     date_str ∈ dates ->
     risk_get risk_data date_str region = Some lvl -> truthy lvl = true ->
     P {| e_Date := date_obj date_str; e_Region := region;
          e_Niveau := lvl; e_Score := score_map !! lvl |}) ->
  Forall P (append_evo_dates risk_data dates regions rows).
Proof.
  revert rows. induction dates as [|d dates IH]; intros rows Hrows Hnew; simpl;
    [exact Hrows|].
  apply IH.
  - apply append_evo_rows_Forall; [exact Hrows|].
    intros region lvl. apply Hnew. left.
  - intros date_str region lvl Hd. apply Hnew. right. exact Hd.
Qed.

Lemma sorted_dates_elem (risk_data : risk_table) (d : pystr) :
  d ∈ sorted_dates risk_data <-> d ∈ dom risk_data.
Proof.
  unfold sorted_dates, sorted. rewrite sort_by_perm. apply elem_of_elements.
Qed.

(** Every row of the evolution table comes from a non-empty label of
    the override table, under the day of its key. *)
Lemma evo_rows_from_table (risk_data : risk_table) (selected_regions : list pystr) :
  (forall d, d ∈ dom risk_data -> is_Some (strptime d)) ->
  Forall (fun r =>
            (exists d x, d ∈ dom risk_data /\ strptime d = Some x /\
                         e_Date r = Timestamp x /\
                         risk_get risk_data d (e_Region r) = Some (e_Niveau r)) /\
            e_Niveau r <> [])
    (evo_rows risk_data selected_regions).
Proof.
  intros Hparse. unfold evo_rows.
  apply append_evo_dates_Forall; [constructor|].
  intros date_str region lvl Hd Hget Ht. simpl.
  apply sorted_dates_elem in Hd. destruct (Hparse date_str Hd) as [x Hx].
  split.
  - exists date_str, x. unfold date_obj. rewrite Hx. auto.
  - destruct lvl; [discriminate | discriminate].
Qed.

(** C7, as the code has it.  The comparison holds the rows of the
    selected date, then those of each date compared with, in the order
    in which these dates are given; it is not sorted.  The evolution
    table, built from the override table, is in ascending order of the
    days whatever the order of the keys.  In both, a row stands for a
    region that has data on that date and carries its level: a region
    without data on a date has no row there. *)
Theorem series_order_and_absence (risk_data : risk_table) (all_security_data : store)
    (selected_date : pystr) (comparison_dates selected_regions : list pystr) :
  (forall d, d ∈ selected_date :: comparison_dates -> is_Some (strptime d)) ->
  (forall d, d ∈ dom risk_data -> is_Some (strptime d)) ->
  (exists rows,
     comparison_data risk_data all_security_data
       (data_for all_security_data selected_date) selected_date
       comparison_dates selected_regions = Some rows /\
     rows = concat (map (date_rows risk_data all_security_data selected_regions)
                      (selected_date :: comparison_dates)) /\
     forall d r,
       r ∈ date_rows risk_data all_security_data selected_regions d ->
       display_date d = Some (c_Date r) /\
       is_Some (Dict.get (c_Region r) (data_for all_security_data d)) /\
       c_Niveau r ∈ [py "Élevé"; py "Moyen"; py "Faible"]) /\
  (exists rows,
     evo_df risk_data selected_regions = Return rows /\
     rows ≡ₚ evo_rows risk_data selected_regions /\
     StronglySorted (fun a b => evo_day a <= evo_day b) rows /\
     forall r, r ∈ rows ->
       (exists d x, d ∈ dom risk_data /\ strptime d = Some x /\
                    e_Date r = Timestamp x /\
                    risk_get risk_data d (e_Region r) = Some (e_Niveau r)) /\
       e_Niveau r <> []).
Proof.
  intros Hdates Hkeys. split.
  - eexists. split; [|split; [reflexivity|]].
    + unfold comparison_data.
      rewrite append_date_rows_eq by (apply Hdates; left). simpl.
      rewrite append_comparison_dates_eq
        by (intros d Hd; apply Hdates; right; exact Hd).
      reflexivity.
    + intros d r Hr.
      destruct (date_rows_elem _ _ _ _ _ Hr) as (Hshown & _ & info & Hget & Hlvl).
      split; [exact Hshown|]. split; [eauto|].
      rewrite Hlvl. apply level_is_label.
  - pose proof (evo_rows_from_table risk_data selected_regions Hkeys) as Hrows.
    rewrite Forall_forall in Hrows.
    exists (sort_by date_ltb (evo_rows risk_data selected_regions)).
    split; [|split; [apply sort_by_perm|split]].
    + unfold evo_df, sort_values_Date.
      replace (forallb (fun r => bool_decide (is_Some (timestamp_of r)))
                 (evo_rows risk_data selected_regions)) with true; [reflexivity|].
      symmetry. apply forallb_forall. intros r Hr.
      apply list_elem_of_In in Hr.
      destruct (Hrows r Hr) as ((d & x & _ & _ & E & _) & _).
      apply bool_decide_eq_true_2. unfold timestamp_of. rewrite E. eauto.
    + apply sort_by_sorted. intros a b Ha Hb.
      destruct (Hrows a Ha) as ((da & xa & _ & _ & Ea & _) & _).
      destruct (Hrows b Hb) as ((db & xb & _ & _ & Eb & _) & _).
      unfold date_ltb, evo_day, timestamp_of. rewrite Ea, Eb. reflexivity.
    + intros r Hr. rewrite sort_by_perm in Hr. apply Hrows. exact Hr.
Qed.

Lemma series_order_and_absence_witness :
  comparison_data risk_north_faible store_09_10 (data_for store_09_10 d_2025_01_10)
    d_2025_01_10 [d_2025_01_09] [py "North"; py "West"]
  = Some [ {| c_Date := py "10/01/2025"; c_Region := py "North";
              c_Niveau := py "Faible" |};
           {| c_Date := py "09/01/2025"; c_Region := py "North";
              c_Niveau := py "Élevé" |} ].
Proof.
  destruct (series_order_and_absence risk_north_faible store_09_10 d_2025_01_10
              [d_2025_01_09] [py "North"; py "West"])
    as [(rows & Hc & Hrows & _) _].
  - intros d Hd.
    apply elem_of_cons in Hd as [-> | Hd]; [vm_compute; eauto|].
    apply elem_of_cons in Hd as [-> | Hd]; [vm_compute; eauto | inversion Hd].
  - intros d Hd.
    unfold risk_north_faible in Hd. rewrite dom_singleton_L in Hd.
    apply elem_of_singleton in Hd as ->. vm_compute. eauto.
  - rewrite Hc, Hrows. reflexivity.
Defined.

(** C7, as stated, fails for the comparison: the selected date being
    10 January and the date compared with 9 January, the row of
    10 January comes first. *)
Lemma comparison_not_in_date_order :
  map c_Date <$>
    comparison_data ∅ store_09_10 (data_for store_09_10 d_2025_01_10)
      d_2025_01_10 [d_2025_01_09] [py "North"]
  = Some [py "10/01/2025"; py "09/01/2025"] /\
  display_date d_2025_01_10 = Some (py "10/01/2025") /\
  display_date d_2025_01_09 = Some (py "09/01/2025") /\
  (toordinal <$> strptime d_2025_01_09) = Some 739260 /\
  (toordinal <$> strptime d_2025_01_10) = Some 739261.
Proof. repeat split; reflexivity. Qed.

End SeriesFacts.

(** ** The classifier on every input *)

Section ClassifierRange.

Lemma level_of_score_in (score : Z) :
  level_of_score score ∈ [ELEVE; MOYEN; FAIBLE].
Proof.
  unfold level_of_score.
  destruct (score >=? 5); [|destruct (score >=? 2)]; set_solver.
Qed.

Lemma from_risk_label_in (level_fr : pystr) (a : alert) :
  from_risk_label level_fr = Some a -> a ∈ [ELEVE; MOYEN; FAIBLE].
Proof.
  unfold from_risk_label. intros H.
  repeat case_bool_decide; simplify_eq; set_solver.
Qed.

Lemma calculate_alert_level_in (risk_data : risk_table) (region_data : observation)
    (region_name date_str : pystr) :
  calculate_alert_level risk_data region_data region_name date_str
  ∈ [ELEVE; MOYEN; FAIBLE].
Proof.
  unfold calculate_alert_level.
  destruct (risk_lookup risk_data region_name date_str ≫= from_risk_label)
    as [a|] eqn:E; [|apply level_of_score_in].
  destruct (risk_lookup risk_data region_name date_str) as [l|]; [|discriminate].
  exact (from_risk_label_in l a E).
Qed.

(** X1.  Whatever the override table and the texts, the level comes
    with its own icon and colour: the result is one of the three
    triples. *)
Theorem alert_is_one_of_three (risk_data : risk_table) (region_data : observation)
    (region_name date_str : pystr) :
  calculate_alert_level risk_data region_data region_name date_str
  ∈ [ELEVE; MOYEN; FAIBLE].
Proof. apply calculate_alert_level_in. Qed.

Lemma situation_score_range (s : pystr) : 0 <= situation_score s <= 4.
Proof. unfold situation_score. repeat destruct (_ || _); try destruct (contains _ _); lia. Qed.

Lemma activites_score_range (s : pystr) : 0 <= activites_score s <= 2.
Proof. unfold activites_score. destruct (_ || _); [|destruct (contains _ _)]; lia. Qed.

Lemma couvre_feu_score_range (s : pystr) : 0 <= couvre_feu_score s <= 2.
Proof. unfold couvre_feu_score. destruct (_ || _); lia. Qed.

(** X2.  The score of an observation lies between 0 and 8. *)
Theorem heuristic_score_range (region_data : observation) :
  0 <= heuristic_score region_data <= 8.
Proof.
  unfold heuristic_score. cbv zeta.
  pose proof (situation_score_range (lower (get_text region_data (py "Situation générale")))).
  pose proof (activites_score_range (lower (get_text region_data (py "Activités économiques")))).
  pose proof (couvre_feu_score_range (lower (get_text region_data (py "Couvre-feu")))).
  lia.
Qed.

Lemma not_high_below_five (risk_data : risk_table) (region_data : observation)
    (region_name date_str : pystr) :
  risk_lookup risk_data region_name date_str ≫= from_risk_label = None ->
  heuristic_score region_data < 5 ->
  calculate_alert_level risk_data region_data region_name date_str <> ELEVE.
Proof.
  intros Hno Hlt. unfold calculate_alert_level. rewrite Hno.
  unfold level_of_score.
  destruct (Z.geb_spec (heuristic_score region_data) 5); [lia|].
  destruct (_ >=? 2); intros E; vm_compute in E; discriminate E.
Qed.

(** X3.  When no override applies, a region is never classified
    "Élevé" if its situation is reported calm ("ras" or "calme",
    without "tendu", "pillage" or "ghost town"), whatever the two other
    texts; nor if the activity and curfew texts match no pattern,
    whatever the situation. *)
Theorem never_high_when_calm_or_alone (risk_data : risk_table)
    (region_data : observation) (region_name date_str : pystr) :
  risk_lookup risk_data region_name date_str ≫= from_risk_label = None ->
  let situation := lower (get_text region_data SITUATION) in
  let activites := lower (get_text region_data ACTIVITES) in
  let couvre_feu := lower (get_text region_data COUVRE_FEU) in
  let r := calculate_alert_level risk_data region_data region_name date_str in
  ((contains (py "ras") situation || contains (py "calme") situation = true) ->
   (contains (py "tendu") situation || contains (py "pillage") situation = false) ->
   contains (py "ghost town") situation = false ->
   r <> ELEVE) /\
  ((contains (py "fermé") activites || contains (py "ralenti") activites
    || contains (py "vide") activites = false) ->
   contains (py "variable") activites = false ->
   (contains (py "interdiction") couvre_feu
    || contains (py "ghost town") couvre_feu = false) ->
   r <> ELEVE).
Proof.
  intros Hno situation activites couvre_feu r. split.
  - intros Hcalm Htense Hghost. apply not_high_below_five; [exact Hno|].
    unfold heuristic_score. cbv zeta.
    fold SITUATION ACTIVITES COUVRE_FEU. fold situation activites couvre_feu.
    pose proof (activites_score_range activites).
    pose proof (couvre_feu_score_range couvre_feu).
    assert (situation_score situation = 0)
      by (unfold situation_score; rewrite Htense, Hghost, Hcalm; reflexivity).
    lia.
  - intros Hact Hvar Hcf. apply not_high_below_five; [exact Hno|].
    unfold heuristic_score. cbv zeta.
    fold SITUATION ACTIVITES COUVRE_FEU. fold situation activites couvre_feu.
    pose proof (situation_score_range situation).
    assert (activites_score activites = 0)
      by (unfold activites_score; rewrite Hact, Hvar; reflexivity).
    assert (couvre_feu_score couvre_feu = 0)
      by (unfold couvre_feu_score; rewrite Hcf; reflexivity).
    lia.
Qed.

Lemma never_high_when_calm_or_alone_witness :
  heuristic_score obs_calm_closed_ban = 4 /\
  calculate_alert_level ∅ obs_calm_closed_ban (py "North") d_2025_01_10 <> ELEVE /\
  calculate_alert_level ∅ obs_ghost_town_only (py "North") d_2025_01_10 <> ELEVE.
Proof.
  split; [reflexivity|]. split.
  - destruct (never_high_when_calm_or_alone ∅ obs_calm_closed_ban (py "North")
                d_2025_01_10) as [Hcalm _]; [reflexivity|].
    apply Hcalm; reflexivity.
  - destruct (never_high_when_calm_or_alone ∅ obs_ghost_town_only (py "North")
                d_2025_01_10) as [_ Halone]; [reflexivity|].
    apply Halone; reflexivity.
Defined.

Lemma lower_cp_idem (c : Z) : lower_cp (lower_cp c) = lower_cp c.
Proof.
  unfold lower_cp.
  destruct (Z.leb_spec 65 c), (Z.leb_spec c 90), (Z.leb_spec 192 c),
    (Z.leb_spec c 222), (Z.eqb_spec c 215); cbn [andb negb]; try lia;
  repeat match goal with
         | |- context [?a <=? ?b] => destruct (Z.leb_spec a b); cbn [andb negb]
         | |- context [?a =? ?b] => destruct (Z.eqb_spec a b); cbn [andb negb]
         end; lia.
Qed.

Lemma lower_idem (s : pystr) : lower (lower s) = lower s.
Proof.
  unfold lower. induction s as [|c s IH]; [reflexivity|].
  simpl. rewrite lower_cp_idem. f_equal. exact IH.
Qed.

Lemma lower_get_text (region_data : observation) (field : pystr) :
  lower (get_text region_data field) = get_text (lower <$> region_data) field.
Proof.
  unfold get_text. rewrite lookup_fmap.
  destruct (region_data !! field); reflexivity.
Qed.

(** X4.  Two observations whose texts differ only by the case of
    their letters get the same alert. *)
Theorem classification_ignores_case (risk_data : risk_table)
    (region_data region_data' : observation) (region_name date_str : pystr) :
  lower <$> region_data = lower <$> region_data' ->
  calculate_alert_level risk_data region_data region_name date_str
  = calculate_alert_level risk_data region_data' region_name date_str.
Proof.
  intros E. unfold calculate_alert_level, heuristic_score. cbv zeta.
  rewrite !lower_get_text, E. reflexivity.
Qed.

Lemma classification_ignores_case_witness :
  calculate_alert_level ∅ obs_tense_upper (py "North") d_2025_01_10
  = calculate_alert_level ∅ obs_tense_lower (py "North") d_2025_01_10.
Proof.
  apply classification_ignores_case.
  unfold obs_tense_upper, obs_tense_lower. rewrite !map_fmap_singleton.
  reflexivity.
Defined.

Lemma get_text_missing (region_data : observation) (field : pystr) :
  region_data !! field = None -> get_text region_data field = [].
Proof. intros H. unfold get_text, pystr in *. rewrite H. reflexivity. Qed.

Lemma score_without_fields (region_data : observation) :
  region_data !! SITUATION = None ->
  region_data !! ACTIVITES = None ->
  region_data !! COUVRE_FEU = None ->
  heuristic_score region_data = 1.
Proof.
  unfold SITUATION, ACTIVITES, COUVRE_FEU. intros H1 H2 H3.
  unfold heuristic_score. cbv zeta.
  rewrite !get_text_missing by assumption. reflexivity.
Qed.

(** X5.  An observation without the three fields read by the
    classifier scores 1, the weight of an unrecognised situation, and
    is "Faible" unless an override applies. *)
Theorem missing_fields_score_one (risk_data : risk_table) (region_data : observation)
    (region_name date_str : pystr) :
  region_data !! SITUATION = None ->
  region_data !! ACTIVITES = None ->
  region_data !! COUVRE_FEU = None ->
  heuristic_score region_data = 1 /\
  (risk_lookup risk_data region_name date_str ≫= from_risk_label = None ->
   calculate_alert_level risk_data region_data region_name date_str = FAIBLE).
Proof.
  intros H1 H2 H3. pose proof (score_without_fields region_data H1 H2 H3) as Hs.
  split; [exact Hs|].
  intros Hno. unfold calculate_alert_level. rewrite Hno, Hs. reflexivity.
Qed.

Lemma missing_fields_score_one_witness :
  heuristic_score obs_circulation_only = 1 /\
  calculate_alert_level ∅ obs_circulation_only (py "North") d_2025_01_10 = FAIBLE.
Proof.
  destruct (missing_fields_score_one ∅ obs_circulation_only (py "North") d_2025_01_10)
    as [Hs Hf]; try reflexivity.
  split; [exact Hs | apply Hf; reflexivity].
Defined.

(** X6.  A region of the map that the snapshot does not hold is
    drawn in the colour of its override if one applies, and in green,
    the colour of "Faible", otherwise. *)
Theorem absent_region_colour (risk_data : risk_table) (security_data : snapshot)
    (selected_date region : pystr) :
  Dict.get region security_data = None ->
  get_region_color risk_data security_data selected_date region
  = match risk_lookup risk_data region selected_date ≫= from_risk_label with
    | Some a => a.2
    | None => py "#388e3c"
    end.
Proof.
  intros Habs. unfold get_region_color. rewrite Habs. simpl default.
  unfold calculate_alert_level.
  destruct (risk_lookup risk_data region selected_date ≫= from_risk_label)
    as [[[lvl icon] color]|]; [reflexivity|].
  rewrite (score_without_fields ∅) by apply lookup_empty. reflexivity.
Qed.

Lemma absent_region_colour_witness :
  get_region_color ∅ snapshot_north d_2025_01_10 (py "South") = py "#388e3c" /\
  get_region_color risk_north_faible [] d_2025_01_10 (py "North") = py "#388e3c".
Proof.
  split.
  - rewrite (absent_region_colour ∅ snapshot_north d_2025_01_10 (py "South"));
      reflexivity.
  - rewrite (absent_region_colour risk_north_faible [] d_2025_01_10 (py "North"));
      reflexivity.
Defined.

End ClassifierRange.

(** ** The summary table and the metrics *)

Section TableFacts.

Lemma stat_row_of (risk_data : risk_table) (data : snapshot) (date_str : pystr)
    (r : stat_row) :
  r ∈ create_statistics_dataframe risk_data data date_str ->
  exists region info,
    (region, info) ∈ data /\ Region r = region /\
    (Niveau_d_alerte r, Icone r, r.(Couvre_feu))
    = ((calculate_alert_level risk_data info region date_str).1.1,
       (calculate_alert_level risk_data info region date_str).1.2,
       get_or_na info (py "Couvre-feu")).
Proof.
  unfold create_statistics_dataframe. intros H.
  apply list_elem_of_fmap in H as ([region info] & -> & Hin).
  exists region, info. split; [exact Hin|].
  destruct (calculate_alert_level risk_data info region date_str) as [[lvl icon] color].
  split; reflexivity.
Qed.

Lemma stat_row_level_icon (risk_data : risk_table) (data : snapshot) (date_str : pystr)
    (r : stat_row) :
  r ∈ create_statistics_dataframe risk_data data date_str ->
  (Niveau_d_alerte r, Icone r) ∈ level_icons.
Proof.
  intros H. apply stat_row_of in H as (region & info & _ & _ & E).
  injection E as E1 E2 _. rewrite E1, E2.
  pose proof (calculate_alert_level_in risk_data info region date_str) as Hin.
  destruct (calculate_alert_level risk_data info region date_str) as [[lvl icon] color].
  unfold level_icons. simpl.
  apply elem_of_cons in Hin as [E | Hin]; [injection E as -> -> _; set_solver|].
  apply elem_of_cons in Hin as [E | Hin]; [injection E as -> -> _; set_solver|].
  apply elem_of_cons in Hin as [E | Hin]; [injection E as -> -> _; set_solver|].
  inversion Hin.
Qed.

(** X7.  The summary table has one row per region of the snapshot,
    in the order of the source, and every row shows one of the three
    levels with the icon of that level. *)
Theorem statistics_one_row_per_region (risk_data : risk_table) (data : snapshot)
    (date_str : pystr) :
  map Region (create_statistics_dataframe risk_data data date_str) = Dict.keys data /\
  forall r, r ∈ create_statistics_dataframe risk_data data date_str ->
            (Niveau_d_alerte r, Icone r) ∈ level_icons.
Proof.
  split; [|intros r; apply stat_row_level_icon].
  unfold create_statistics_dataframe, Dict.keys.
  induction data as [|[region info] data IH]; [reflexivity|].
  simpl. rewrite IH.
  destruct (calculate_alert_level risk_data info region date_str) as [[lvl icon] color].
  reflexivity.
Qed.

Lemma count_three_ways {A} (P1 P2 P3 : A -> Prop)
    `{!forall x, Decision (P1 x)} `{!forall x, Decision (P2 x)}
    `{!forall x, Decision (P3 x)} (l : list A) :
  (forall x, x ∈ l ->
     (P1 x /\ ~ P2 x /\ ~ P3 x) \/ (~ P1 x /\ P2 x /\ ~ P3 x)
     \/ (~ P1 x /\ ~ P2 x /\ P3 x)) ->
  nrows (filter P1 l) + nrows (filter P2 l) + nrows (filter P3 l) = nrows l.
Proof.
  unfold nrows. induction l as [|x l IH]; intros Hall; [reflexivity|].
  assert (IH' := IH (fun y Hy => Hall y (list_elem_of_further _ _ _ Hy))).
  rewrite !filter_cons.
  destruct (Hall x ltac:(left)) as [(A1 & A2 & A3) | [(A1 & A2 & A3) | (A1 & A2 & A3)]];
    repeat case_decide; try contradiction; simpl length; lia.
Qed.

(** X8.  Whatever the filters, the three counts of the overview add up
    to the number of regions shown. *)
Theorem alert_counts_add_up (risk_data : risk_table) (data : snapshot)
    (date_str : pystr) (selected_regions : list pystr)
    (show_high show_medium show_low : bool) :
  let shown :=
    filtered_df (create_statistics_dataframe risk_data data date_str)
      selected_regions show_high show_medium show_low in
  alert_high shown + alert_medium shown + alert_low shown = total_regions shown.
Proof.
  intros shown. unfold alert_high, alert_medium, alert_low, total_regions.
  apply count_three_ways. intros r Hr.
  apply filtered_df_elem in Hr as (Hr & _).
  apply stat_row_level_icon in Hr. unfold level_icons in Hr.
  apply elem_of_cons in Hr as [E | Hr]; [injection E as E _|].
  { left. rewrite E. repeat split; intros H; vm_compute in H; discriminate H. }
  apply elem_of_cons in Hr as [E | Hr]; [injection E as E _|].
  { right. left. rewrite E. repeat split; intros H; vm_compute in H; discriminate H. }
  apply elem_of_cons in Hr as [E | Hr]; [injection E as E _|inversion Hr].
  right. right. rewrite E. repeat split; intros H; vm_compute in H; discriminate H.
Qed.

(** X9.  A region whose record has no "Couvre-feu" field counts for
    nothing in the score, yet its row, which shows "N/A" there, is
    listed among the regions under night restrictions whenever it
    passes the filters: only a text equal to "ras" up to case is left
    out of that list. *)
Theorem missing_curfew_listed_as_restricted (risk_data : risk_table) (data : snapshot)
    (date_str region : pystr) (info : observation) :
  (region, info) ∈ data ->
  info !! COUVRE_FEU = None ->
  couvre_feu_score (lower (get_text info COUVRE_FEU)) = 0 /\
  exists r,
    r ∈ create_statistics_dataframe risk_data data date_str /\
    Region r = region /\ Couvre_feu r = py "N/A" /\
    forall selected_regions show_high show_medium show_low,
      let shown :=
        filtered_df (create_statistics_dataframe risk_data data date_str)
          selected_regions show_high show_medium show_low in
      r ∈ shown -> r ∈ couvre_feu_active shown.
Proof.
  intros Hin Hmiss. split.
  - rewrite get_text_missing by exact Hmiss. reflexivity.
  - unfold create_statistics_dataframe.
    destruct (calculate_alert_level risk_data info region date_str)
      as [[lvl icon] color] eqn:Hc.
    eexists. split.
    + apply list_elem_of_fmap. exists (region, info). split; [|exact Hin].
      simpl. rewrite Hc. reflexivity.
    + simpl. split; [reflexivity|].
      assert (Hna : get_or_na info (py "Couvre-feu") = py "N/A").
      { unfold get_or_na. unfold COUVRE_FEU, pystr in *. rewrite Hmiss. reflexivity. }
      split; [exact Hna|].
      intros sel sh sm sl. cbv zeta. intros Hr. unfold couvre_feu_active.
      apply list_elem_of_filter. split; [|exact Hr].
      simpl. rewrite Hna. intros E. vm_compute in E. discriminate E.
Qed.

Lemma missing_curfew_listed_as_restricted_witness :
  exists r,
    r ∈ create_statistics_dataframe ∅ snapshot_north d_2025_01_10 /\
    Region r = py "North" /\ Couvre_feu r = py "N/A" /\
    r ∈ couvre_feu_active
          (filtered_df (create_statistics_dataframe ∅ snapshot_north d_2025_01_10)
             [py "North"] true true true).
Proof.
  assert (Hin : (py "North", obs_circulation_only) ∈ snapshot_north) by left.
  assert (Hmiss : obs_circulation_only !! COUVRE_FEU = None) by reflexivity.
  destruct (missing_curfew_listed_as_restricted ∅ snapshot_north d_2025_01_10
              (py "North") obs_circulation_only Hin Hmiss)
    as (_ & r & Hr & Hreg & Hna & Hact).
  exists r. split; [exact Hr|]. split; [exact Hreg|]. split; [exact Hna|].
  apply Hact. apply filtered_df_elem. split; [exact Hr|].
  split; [rewrite Hreg; left|].
  repeat split; reflexivity.
Defined.

End TableFacts.

(** ** The date index and the date shown *)

Section DateShownFacts.

Lemma dict_get_key {V} (k : pystr) (d : Dict.dict V) :
  k ∈ Dict.keys d -> is_Some (Dict.get k d).
Proof.
  unfold Dict.keys. induction d as [|[k' v] d IH]; intros H; [inversion H|].
  simpl. case_bool_decide; [eauto|].
  simpl in H. apply elem_of_cons in H as [-> | H]; [contradiction|].
  apply IH. exact H.
Qed.

(** X10.  The date index holds the dates of the store, each as often
    as the store has it, the latest first: the date that the sidebar
    proposes at first, the head of the index, is the most recent one. *)
Theorem available_dates_latest_first (all_security_data : store) :
  Forall iso_date (Dict.keys all_security_data) ->
  available_dates all_security_data ≡ₚ Dict.keys all_security_data /\
  forall latest rest l,
    available_dates all_security_data = latest :: rest ->
    strptime latest = Some l ->
    forall d x, d ∈ Dict.keys all_security_data -> strptime d = Some x ->
                toordinal x <= toordinal l.
Proof.
  intros Hiso.
  assert (Hperm : available_dates all_security_data ≡ₚ Dict.keys all_security_data)
    by apply sort_by_perm.
  split; [exact Hperm|].
  intros latest rest l E Hl d x Hd Hx.
  pose proof (available_dates_descending all_security_data Hiso) as Hs.
  rewrite <- Hperm, E in Hd. rewrite E in Hs.
  apply StronglySorted_cons in Hs as [Hall _]. rewrite Forall_forall in Hall.
  apply elem_of_cons in Hd as [-> | Hd].
  - rewrite Hl in Hx. injection Hx as ->. lia.
  - exact (Hall d Hd l x Hl Hx).
Qed.

Lemma available_dates_latest_first_witness :
  available_dates store_09_10 = [d_2025_01_10; d_2025_01_09] /\
  forall d x, d ∈ Dict.keys store_09_10 -> strptime d = Some x ->
              toordinal x <= toordinal day_2025_01_10.
Proof.
  split; [reflexivity|].
  assert (Hiso : Forall iso_date (Dict.keys store_09_10)).
  { repeat constructor.
    - exists {| year := 2025; month := 1; day := 10 |}.
      repeat split; vm_compute; discriminate.
    - exists {| year := 2025; month := 1; day := 9 |}.
      repeat split; vm_compute; discriminate. }
  destruct (available_dates_latest_first store_09_10 Hiso) as [_ H].
  apply (H d_2025_01_10 [d_2025_01_09]); reflexivity.
Defined.

(** X11.  When the store has a date, and its dates are ISO dates, the
    date shown is one of them, so that its snapshot is found at line
    230: the day picked itself if it is in the store, and otherwise the
    date that the fallback selects. *)
Theorem selected_date_has_snapshot (all_security_data : store)
    (selected_date_obj now : date) :
  Dict.keys all_security_data <> [] ->
  Forall iso_date (Dict.keys all_security_data) ->
  valid_date selected_date_obj = true ->
  1000 <= year selected_date_obj ->
  exists shown,
    select_date (available_dates all_security_data) selected_date_obj now
    = Some shown /\
    is_Some (Dict.get shown all_security_data) /\
    (strftime_iso selected_date_obj ∈ Dict.keys all_security_data ->
     shown = strftime_iso selected_date_obj).
Proof.
  intros Hne Hiso Hv _.
  assert (Hperm : available_dates all_security_data ≡ₚ Dict.keys all_security_data)
    by apply sort_by_perm.
  rewrite Forall_forall in Hiso.
  assert (Hparse : forall d, d ∈ available_dates all_security_data ->
                             is_Some (strptime d)).
  { intros d Hd. rewrite Hperm in Hd.
    destruct (iso_date_parses d (Hiso d Hd)) as (x & _ & _ & ->). eauto. }
  assert (Hne' : available_dates all_security_data <> []).
  { intros E. rewrite E in Hperm. symmetry in Hperm.
    apply Permutation_nil_r in Hperm. contradiction. }
  destruct (decide (strftime_iso selected_date_obj ∈ available_dates all_security_data))
    as [Hin | Hout].
  - exists (strftime_iso selected_date_obj). split; [|split; [|reflexivity]].
    + unfold select_date.
      destruct (available_dates all_security_data) as [|a l] eqn:E; [contradiction|].
      assert (HM : is_Some (mapM strptime (a :: l)))
        by (apply mapM_is_Some, Forall_forall; exact Hparse).
      destruct HM as [objs ->]. simpl.
      rewrite bool_decide_eq_true_2 by exact Hin. reflexivity.
    + apply dict_get_key. rewrite <- Hperm. exact Hin.
  - rewrite select_date_missing by assumption.
    assert (Hsel : strptime (strftime_iso selected_date_obj) = Some selected_date_obj)
      by (apply strptime_strftime_iso; exact Hv).
    destruct (min_key_is_Some (day_distance (strftime_iso selected_date_obj))
                (available_dates all_security_data) Hne') as [shown Hmin].
    { intros d Hd. destruct (Hparse d Hd) as [x Hx].
      unfold day_distance. rewrite Hx, Hsel. simpl. eauto. }
    exists shown. split; [exact Hmin|]. split.
    + destruct (min_key_first _ _ _ Hmin) as (l1 & l2 & kc & El & _).
      apply dict_get_key. rewrite <- Hperm, El.
      apply elem_of_app. right. left.
    + intros Hin. exfalso. apply Hout. rewrite Hperm. exact Hin.
Qed.

Lemma selected_date_has_snapshot_witness :
  exists shown,
    select_date (available_dates store_09_10)
      {| year := 2025; month := 1; day := 9 |} day_2025_01_10 = Some shown /\
    is_Some (Dict.get shown store_09_10) /\
    (strftime_iso {| year := 2025; month := 1; day := 9 |} ∈ Dict.keys store_09_10 ->
     shown = strftime_iso {| year := 2025; month := 1; day := 9 |}).
Proof.
  apply (selected_date_has_snapshot store_09_10).
  - discriminate.
  - repeat constructor.
    + exists {| year := 2025; month := 1; day := 10 |}.
      repeat split; vm_compute; discriminate.
    + exists {| year := 2025; month := 1; day := 9 |}.
      repeat split; vm_compute; discriminate.
  - reflexivity.
  - vm_compute. discriminate.
Defined.

(** X12.  A date of a year of four digits written in ISO form reads
    back as the same day, and
    is displayed as that day in the form day/month/year: the date
    strings that the page writes never fail to parse.  Two such days
    have different ISO strings. *)
Theorem iso_date_round_trip (d : date) :
  valid_date d = true -> 1000 <= year d ->
  strptime (strftime_iso d) = Some d /\
  display_date (strftime_iso d) = Some (strftime_fr d) /\
  forall d', valid_date d' = true -> 1000 <= year d' ->
             strftime_iso d' = strftime_iso d -> d' = d.
Proof.
  intros Hv _. pose proof (strptime_strftime_iso d Hv) as Hp.
  split; [exact Hp|]. split.
  - unfold display_date. rewrite Hp. reflexivity.
  - intros d' Hv' _ E. pose proof (strptime_strftime_iso d' Hv') as Hp'.
    rewrite E, Hp in Hp'. injection Hp' as ->. reflexivity.
Qed.

Lemma iso_date_round_trip_witness :
  strptime (strftime_iso day_2025_01_10) = Some day_2025_01_10 /\
  display_date (strftime_iso day_2025_01_10) = Some (py "10/01/2025").
Proof.
  destruct (iso_date_round_trip day_2025_01_10) as (Hp & Hd & _);
    [reflexivity | vm_compute; discriminate |].
  split; [exact Hp | exact Hd].
Defined.

Lemma getitem_second {A} (l : list A) :
  (1 < length l)%nat -> getitem l (Z.min 1 (nrows l - 1)) = l !! 1%nat.
Proof.
  intros Hlen. unfold getitem, nrows.
  replace (Z.min 1 (Z.of_nat (length l) - 1)) with 1 by lia.
  reflexivity.
Qed.

(** X13.  When the comparison is drawn, that is with two dates or
    more, the date ticked at first is the second most recent one and no
    index is out of range.  It is among the dates offered exactly when
    it is not the date shown. *)
Theorem default_comparison_date (available : list pystr) (selected_date : pystr) :
  (1 < length available)%nat ->
  exists second,
    available !! 1%nat = Some second /\
    comparison_default available = Some [second] /\
    (second ∈ comparison_options available selected_date <-> second <> selected_date).
Proof.
  intros Hlen.
  destruct (lookup_lt_is_Some_2 available 1 Hlen) as [second Hs].
  exists second. split; [exact Hs|]. split.
  - unfold comparison_default. rewrite getitem_second by exact Hlen.
    rewrite Hs. reflexivity.
  - unfold comparison_options. rewrite list_elem_of_filter.
    split; [intros [H _]; exact H|].
    intros H. split; [exact H|]. apply list_elem_of_lookup. eauto.
Qed.

Lemma default_comparison_date_witness :
  comparison_default (available_dates store_09_10) = Some [d_2025_01_09] /\
  d_2025_01_09 ∉ comparison_options (available_dates store_09_10) d_2025_01_09.
Proof.
  destruct (default_comparison_date (available_dates store_09_10) d_2025_01_09)
    as (second & Hs & Hd & Hopt).
  - vm_compute. lia.
  - injection Hs as <-. split; [exact Hd|].
    intros Hin. apply Hopt in Hin. apply Hin. reflexivity.
Defined.

End DateShownFacts.

(** ** The loader on other sources *)

Section LoaderMoreFacts.

Lemma strftime_iso_looks_like_date (d : date) :
  looks_like_date (strftime_iso d) = true.
Proof. reflexivity. Qed.

(** X14.  A source that holds a JSON value other than an object makes
    the loader fail with [AttributeError] when the value is truthy (a
    non-empty array or string, a non-zero number, [true]); a falsy one
    ([null], [false], 0, an empty string or array) is wrapped as the
    snapshot of today. *)
Theorem load_non_object_source (data : json) (now : date) :
  (forall members, data <> JObj members) ->
  load_security_data_by_date (Parsed data) now
  = if json_truthy data then (Raise AttributeError, [])
    else (Return (JObj [(strftime_iso now, data)]), []).
Proof.
  intros Hnot. unfold load_security_data_by_date, load_body, first_key_of.
  destruct data as [|b|n|s|l|m]; cbn.
  - reflexivity.
  - destruct b; reflexivity.
  - destruct (n =? 0); reflexivity.
  - destruct s; reflexivity.
  - destruct l; reflexivity.
  - exfalso. exact (Hnot m eq_refl).
Qed.

Lemma load_non_object_source_witness :
  load_security_data_by_date (Parsed (JArr [JStr (py "North")])) day_2025_01_10
  = (Raise AttributeError, []) /\
  load_security_data_by_date (Parsed (JArr [])) day_2025_01_10
  = (Return (JObj [(d_2025_01_10, JArr [])]), []).
Proof.
  split.
  - rewrite load_non_object_source by discriminate. reflexivity.
  - rewrite load_non_object_source by discriminate. reflexivity.
Defined.

(** X15.  In a year of four digits, what the loader returns for a
    file that it could read is an object whose first key has the form
    of a date, and loading that object again returns it unchanged, at
    any later date. *)
Theorem load_result_is_date_keyed (data r : json) (now : date) (msgs : list st_call) :
  1000 <= year now <= 9999 ->
  load_security_data_by_date (Parsed data) now = (Return r, msgs) ->
  msgs = [] /\
  (exists k v rest, r = JObj ((k, v) :: rest) /\ looks_like_date k = true) /\
  forall now', load_security_data_by_date (Parsed r) now' = (Return r, []).
Proof.
  intros _. unfold load_security_data_by_date, load_body, first_key_of.
  assert (Hwrap : forall now',
            load_security_data_by_date
              (Parsed (JObj [(strftime_iso now, data)])) now'
            = (Return (JObj [(strftime_iso now, data)]), [])).
  { intros now'. reflexivity. }
  unfold load_security_data_by_date, load_body, first_key_of in Hwrap.
  destruct data as [|b|n|s|l|m]; cbn.
  - intros E. injection E as <- <-. split; [reflexivity|].
    split; [eexists _, _, _; split; reflexivity | exact Hwrap].
  - destruct b; cbn; intros E; [discriminate|].
    injection E as <- <-. split; [reflexivity|].
    split; [eexists _, _, _; split; reflexivity | exact Hwrap].
  - destruct (n =? 0) eqn:En; cbn; intros E; [|discriminate].
    injection E as <- <-. split; [reflexivity|].
    split; [eexists _, _, _; split; reflexivity | exact Hwrap].
  - destruct s; cbn; intros E; [|discriminate].
    injection E as <- <-. split; [reflexivity|].
    split; [eexists _, _, _; split; reflexivity | exact Hwrap].
  - destruct l; cbn; intros E; [|discriminate].
    injection E as <- <-. split; [reflexivity|].
    split; [eexists _, _, _; split; reflexivity | exact Hwrap].
  - destruct m as [|[k v] rest]; cbn.
    + intros E. injection E as <- <-. split; [reflexivity|].
      split; [eexists _, _, _; split; reflexivity | exact Hwrap].
    + destruct (looks_like_date k) eqn:Hk; cbn; intros E.
      * injection E as <- <-. split; [reflexivity|].
        split; [eexists _, _, _; split; [reflexivity | exact Hk]|].
        intros now'. cbn. rewrite Hk. reflexivity.
      * injection E as <- <-. split; [reflexivity|].
        split; [eexists _, _, _; split; reflexivity | exact Hwrap].
Qed.

Lemma load_result_is_date_keyed_witness :
  load_security_data_by_date (Parsed (JObj [(py "North", JObj [])])) day_2025_01_10
  = (Return (JObj [(d_2025_01_10, JObj [(py "North", JObj [])])]), []) /\
  load_security_data_by_date
    (Parsed (JObj [(d_2025_01_10, JObj [(py "North", JObj [])])]))
    {| year := 2025; month := 1; day := 12 |}
  = (Return (JObj [(d_2025_01_10, JObj [(py "North", JObj [])])]), []).
Proof.
  split; [reflexivity|].
  destruct (load_result_is_date_keyed (JObj [(py "North", JObj [])])
              (JObj [(d_2025_01_10, JObj [(py "North", JObj [])])])
              day_2025_01_10 []) as (_ & _ & H);
    [vm_compute; split; discriminate | reflexivity |].
  exact (H {| year := 2025; month := 1; day := 12 |}).
Defined.

End LoaderMoreFacts.

(** ** The evolution table *)

Section EvolutionFacts.

Lemma append_evo_rows_elem (risk_data : risk_table) (date_str : pystr)
    (regions : list pystr) (rows : list evo_row) (r : evo_row) :
  r ∈ append_evo_rows risk_data date_str regions rows ->
  r ∈ rows \/
  (e_Region r ∈ regions /\ e_Score r = score_map !! e_Niveau r /\
   e_Date r = date_obj date_str /\
   risk_get risk_data date_str (e_Region r) = Some (e_Niveau r)).
Proof.
  revert rows. induction regions as [|region regions IH]; intros rows; simpl;
    [auto|].
  assert (Hskip : r ∈ append_evo_rows risk_data date_str regions rows ->
            r ∈ rows \/
            (e_Region r ∈ region :: regions /\ e_Score r = score_map !! e_Niveau r /\
             e_Date r = date_obj date_str /\
             risk_get risk_data date_str (e_Region r) = Some (e_Niveau r))).
  { intros H. destruct (IH rows H) as [? | (? & ?)]; [auto|].
    right. split; [right; assumption | assumption]. }
  destruct (risk_get risk_data date_str region) as [lvl|] eqn:G; [|exact Hskip].
  destruct (truthy lvl); [|exact Hskip].
  intros H. destruct (IH _ H) as [Hin | (? & ?)].
  - apply elem_of_app in Hin as [Hin | Hin]; [auto|].
    apply list_elem_of_singleton in Hin as ->. right. simpl.
    split; [left|]. auto.
  - right. split; [right; assumption | assumption].
Qed.

Lemma append_evo_dates_elem (risk_data : risk_table) (dates regions : list pystr)
    (rows : list evo_row) (r : evo_row) :
  r ∈ append_evo_dates risk_data dates regions rows ->
  r ∈ rows \/
  (e_Region r ∈ regions /\ e_Score r = score_map !! e_Niveau r /\
   exists d, d ∈ dates /\ e_Date r = date_obj d /\
             risk_get risk_data d (e_Region r) = Some (e_Niveau r)).
Proof.
  revert rows. induction dates as [|d dates IH]; intros rows; simpl; [auto|].
  intros H. destruct (IH _ H) as [Hin | (? & ? & d' & ? & ?)].
  - apply append_evo_rows_elem in Hin as [? | (? & ? & ? & ?)]; [auto|].
    right. split; [assumption|]. split; [assumption|].
    exists d. split; [left | auto].
  - right. split; [assumption|]. split; [assumption|].
    exists d'. split; [right; assumption | assumption].
Qed.

Lemma regions_to_plot_targets (risk_data : risk_table) (selected_regions : list pystr)
    (region : pystr) :
  region ∈ regions_to_plot risk_data selected_regions ->
  region ∈ target_regions /\
  (filter (fun r => r ∈ selected_regions) target_regions <> [] ->
   region ∈ selected_regions).
Proof.
  unfold regions_to_plot.
  destruct (filter (fun r => r ∈ selected_regions) target_regions) as [|a l] eqn:E.
  - intros H. apply list_elem_of_filter in H as [_ H]. split; [exact H|].
    intros Hne. contradiction.
  - intros H. rewrite <- E in H. apply list_elem_of_filter in H as [Hs Ht].
    split; [exact Ht | intros _; exact Hs].
Qed.

(** X16.  The evolution table never holds a region outside the five
    target regions, and when the selection of the sidebar contains a
    target region it holds selected regions only.  Each row carries a
    label that the override table gives to its region under a date of
    the table, with the score 1, 2 or 3 of that label, or no score for
    a label that is none of the three. *)
Theorem evolution_rows_within_targets (risk_data : risk_table)
    (selected_regions : list pystr) (rows : list evo_row) :
  evo_df risk_data selected_regions = Return rows ->
  forall r, r ∈ rows ->
    e_Region r ∈ target_regions /\
    (filter (fun x => x ∈ selected_regions) target_regions <> [] ->
     e_Region r ∈ selected_regions) /\
    (exists d, d ∈ dom risk_data /\
               risk_get risk_data d (e_Region r) = Some (e_Niveau r)) /\
    e_Score r = (if bool_decide (e_Niveau r = py "Faible") then Some 1
                 else if bool_decide (e_Niveau r = py "Moyen") then Some 2
                 else if bool_decide (e_Niveau r = py "Élevé") then Some 3
                 else None).
Proof.
  unfold evo_df, sort_values_Date. intros H r Hr.
  destruct (_ || _); [|discriminate]. injection H as <-.
  rewrite sort_by_perm in Hr. unfold evo_rows in Hr.
  apply append_evo_dates_elem in Hr as [Hr | (Hreg & Hscore & d & Hd & _ & Hget)];
    [inversion Hr|].
  apply regions_to_plot_targets in Hreg as [Ht Hs].
  split; [exact Ht|]. split; [exact Hs|]. split.
  - exists d. split; [apply sorted_dates_elem; exact Hd | exact Hget].
  - rewrite Hscore. unfold score_map.
    repeat case_bool_decide.
    + rewrite H. reflexivity.
    + rewrite H0. reflexivity.
    + rewrite H1. reflexivity.
    + rewrite !lookup_insert_ne by congruence.
      apply lookup_singleton_ne. congruence.
Qed.

Lemma evolution_rows_within_targets_witness :
  evo_df risk_north_faible [py "North"]
  = Return [ {| e_Date := Timestamp day_2025_01_10; e_Region := py "North";
                e_Niveau := py "Faible"; e_Score := Some 1 |} ] /\
  py "North" ∈ target_regions.
Proof.
  split; [reflexivity|].
  apply (evolution_rows_within_targets risk_north_faible [py "North"] _ eq_refl
           {| e_Date := Timestamp day_2025_01_10; e_Region := py "North";
              e_Niveau := py "Faible"; e_Score := Some 1 |}).
  left.
Defined.

End EvolutionFacts.

(** ** The banking page: status, counts and groups *)

Section BankingPageFacts.

Lemma ouvert_labels_Some (k v : pystr) :
  ouvert_labels !! k = Some v <->
  (k = py "oui" /\ v = py "Oui") \/ (k = py "non" /\ v = py "Non").
Proof.
  unfold ouvert_labels. rewrite lookup_insert_Some, lookup_singleton_Some.
  split.
  - intros [[<- <-] | [_ [<- <-]]]; auto.
  - intros [[-> ->] | [-> ->]]; [left; auto|].
    right. split; [|auto]. intros E. vm_compute in E. discriminate E.
Qed.

Lemma normalize_ouvert_Some (cell : option pystr) (v : pystr) :
  normalize_ouvert cell = Some v <->
  exists s, cell = Some s /\
            ((lower (strip s) = py "oui" /\ v = py "Oui") \/
             (lower (strip s) = py "non" /\ v = py "Non")).
Proof.
  unfold normalize_ouvert. destruct cell as [s|]; simpl.
  - rewrite ouvert_labels_Some. split.
    + intros H. exists s. auto.
    + intros (s' & E & H). injection E as <-. exact H.
  - split; [discriminate | intros (s & E & _); discriminate].
Qed.


Lemma normalize_ouvert_idem (cell : option pystr) :
  normalize_ouvert (normalize_ouvert cell) = normalize_ouvert cell.
Proof.
  destruct (normalize_ouvert cell) as [v|] eqn:E; [|reflexivity].
  apply normalize_ouvert_Some in E as (s & _ & [[_ ->] | [_ ->]]); reflexivity.
Qed.

(** X18.  Cleaning the column twice gives what cleaning it once
    gives: "Oui" and "Non" are themselves read as yes and no. *)
Theorem clean_Ouvert_idempotent (column : list (option pystr)) :
  clean_Ouvert (clean_Ouvert column) = clean_Ouvert column.
Proof.
  unfold clean_Ouvert. rewrite map_map. apply map_ext.
  intros cell. apply normalize_ouvert_idem.
Qed.

Lemma filter_keeps_all {A} (P : A -> Prop) `{!forall x, Decision (P x)} (l : list A) :
  (forall x, x ∈ l -> P x) -> filter P l = l.
Proof.
  induction l as [|x l IH]; intros Hall; [reflexivity|].
  rewrite filter_cons_True by (apply Hall; left).
  f_equal. apply IH. intros y Hy. apply Hall. right. exact Hy.
Qed.

Lemma filter_keeps_none {A} (P : A -> Prop) `{!forall x, Decision (P x)} (l : list A) :
  (forall x, x ∈ l -> ~ P x) -> filter P l = [].
Proof.
  induction l as [|x l IH]; intros Hall; [reflexivity|].
  rewrite filter_cons_False by (apply Hall; left).
  apply IH. intros y Hy. apply Hall. right. exact Hy.
Qed.

Lemma open_not_closed (r : bank_record) : is_open r -> ~ is_closed r.
Proof.
  unfold is_open, is_closed. intros -> E. vm_compute in E. discriminate E.
Qed.

(** X19.  Every establishment shown counts as open, as closed, or,
    when its status is missing, as neither: the two counts fall short
    of the total by the number of missing statuses.  Under "Ouverts
    uniquement" all are open and none closed, and under "Fermés
    uniquement" all are closed and none open. *)
Theorem bank_counts_add_up (df_banking : list bank_record) (selected_date : date)
    (selected_city status_filter : pystr) :
  let shown := df_filtered df_banking selected_date selected_city status_filter in
  banks_open shown + banks_closed shown
  + nrows (filter (fun r => ~ is_open r /\ ~ is_closed r) shown)
  = total_banks shown /\
  (status_filter = py "Ouverts uniquement" ->
   banks_open shown = total_banks shown /\ banks_closed shown = 0) /\
  (status_filter = py "Fermés uniquement" ->
   banks_closed shown = total_banks shown /\ banks_open shown = 0).
Proof.
  intros shown. split; [|split].
  - unfold banks_open, banks_closed, total_banks. apply count_three_ways.
    intros r _. destruct (decide (is_open r)) as [Ho | Ho].
    + left. pose proof (open_not_closed r Ho). tauto.
    + destruct (decide (is_closed r)); tauto.
  - intros ->. unfold shown, df_filtered. cbv zeta.
    rewrite (bool_decide_eq_true_2 (py "Ouverts uniquement" = py "Ouverts uniquement"))
      by reflexivity.
    unfold banks_open, banks_closed, total_banks. split.
    + rewrite (filter_keeps_all is_open); [reflexivity|].
      intros r Hr. apply list_elem_of_filter in Hr as [Ho _]. exact Ho.
    + rewrite (filter_keeps_none is_closed); [reflexivity|].
      intros r Hr. apply list_elem_of_filter in Hr as [Ho _].
      apply open_not_closed. exact Ho.
  - intros ->. unfold shown, df_filtered. cbv zeta.
    rewrite (bool_decide_eq_false_2 (py "Fermés uniquement" = py "Ouverts uniquement"))
      by (intros E; vm_compute in E; discriminate E).
    rewrite (bool_decide_eq_true_2 (py "Fermés uniquement" = py "Fermés uniquement"))
      by reflexivity.
    unfold banks_open, banks_closed, total_banks. split.
    + rewrite (filter_keeps_all is_closed); [reflexivity|].
      intros r Hr. apply list_elem_of_filter in Hr as [Hc _]. exact Hc.
    + rewrite (filter_keeps_none is_open); [reflexivity|].
      intros r Hr Ho. apply list_elem_of_filter in Hr as [Hc _].
      exact (open_not_closed r Ho Hc).
Qed.

(** X20.  In the list, a record is shown "🟢 Ouvert" on a green
    ground exactly when it counts as open; any other record, also one
    whose status is missing and which is not counted as closed, is
    shown "🔴 Fermé" on a red ground. *)
Theorem statut_follows_open (r : bank_record) :
  (is_open r ->
   statut (b_Ouvert r) = py "🟢 Ouvert" /\
   color_status (statut (b_Ouvert r)) = replicate 5 (py "background-color: #e8f5e9")) /\
  (~ is_open r ->
   statut (b_Ouvert r) = py "🔴 Fermé" /\
   color_status (statut (b_Ouvert r)) = replicate 5 (py "background-color: #ffebee")).
Proof.
  unfold is_open, statut. split; intros H.
  - rewrite bool_decide_eq_true_2 by exact H. split; reflexivity.
  - rewrite bool_decide_eq_false_2 by exact H. split; reflexivity.
Qed.

Lemma bank_counts_add_up_witness :
  let shown := df_filtered df_banks day_2025_01_10 (py "Toutes") (py "Tous") in
  total_banks shown = 3 /\ banks_open shown = 1 /\ banks_closed shown = 1 /\
  banks_open shown + banks_closed shown
  + nrows (filter (fun r => ~ is_open r /\ ~ is_closed r) shown)
  = total_banks shown.
Proof.
  cbv zeta. split; [reflexivity|]. split; [reflexivity|]. split; [reflexivity|].
  apply (bank_counts_add_up df_banks day_2025_01_10 (py "Toutes") (py "Tous")).
Defined.

Lemma statut_follows_open_witness :
  statut (b_Ouvert bank_open) = py "🟢 Ouvert" /\
  statut (b_Ouvert bank_unknown) = py "🔴 Fermé" /\
  ~ is_closed bank_unknown.
Proof.
  split; [|split].
  - apply (proj1 (statut_follows_open bank_open)). reflexivity.
  - apply (proj2 (statut_follows_open bank_unknown)).
    intros E. vm_compute in E. discriminate E.
  - intros E. vm_compute in E. discriminate E.
Defined.

Lemma total_of_app (a b : list Z) : total_of (a ++ b) = total_of a + total_of b.
Proof.
  unfold total_of. induction a as [|x a IH]; simpl; [reflexivity|].
  rewrite IH. lia.
Qed.

Lemma count_disjoint {A} (P1 P2 P12 : A -> Prop)
    `{!forall x, Decision (P1 x)} `{!forall x, Decision (P2 x)}
    `{!forall x, Decision (P12 x)} (l : list A) :
  (forall x, x ∈ l -> (P12 x <-> P1 x \/ P2 x)) ->
  (forall x, x ∈ l -> ~ (P1 x /\ P2 x)) ->
  nrows (filter P1 l) + nrows (filter P2 l) = nrows (filter P12 l).
Proof.
  unfold nrows. induction l as [|x l IH]; intros Hor Hdis; [reflexivity|].
  assert (IH' := IH (fun y Hy => Hor y (list_elem_of_further _ _ _ Hy))
                    (fun y Hy => Hdis y (list_elem_of_further _ _ _ Hy))).
  rewrite !filter_cons.
  pose proof (Hor x ltac:(left)). pose proof (Hdis x ltac:(left)).
  repeat case_decide; simpl length; try lia; tauto.
Qed.

Lemma filter_on_members {A} (P1 P2 : A -> Prop)
    `{!forall x, Decision (P1 x)} `{!forall x, Decision (P2 x)} (l : list A) :
  (forall x, x ∈ l -> (P1 x <-> P2 x)) -> filter P1 l = filter P2 l.
Proof.
  induction l as [|x l IH]; intros Hiff; [reflexivity|].
  rewrite !filter_cons.
  rewrite IH by (intros y Hy; apply Hiff; right; exact Hy).
  pose proof (Hiff x ltac:(left)).
  repeat case_decide; try reflexivity; tauto.
Qed.

Lemma group_keys_elem (column : list (option pystr)) (k : pystr) :
  k ∈ group_keys column <-> Some k ∈ column.
Proof.
  unfold group_keys, sorted. rewrite sort_by_perm, elem_of_remove_dups.
  rewrite list_elem_of_omap. split.
  - intros (x & Hx & E). simpl in E. subst x. exact Hx.
  - intros H. exists (Some k). auto.
Qed.

Lemma group_keys_NoDup (column : list (option pystr)) : NoDup (group_keys column).
Proof.
  unfold group_keys, sorted. rewrite sort_by_perm. apply NoDup_remove_dups.
Qed.

(** The sizes of the groups of a column add up to the number of rows
    that have a value in that column. *)
Lemma group_sizes_total {A} (key : A -> option pystr) (Q : A -> Prop)
    `{!forall x, Decision (Q x)} (l : list A) (ks : list pystr) :
  NoDup ks ->
  total_of (map (fun k => nrows (filter (fun r => Q r /\ key r = Some k) l)) ks)
  = nrows (filter (fun r => Q r /\ key r ∈ (Some <$> ks)) l).
Proof.
  induction 1 as [|k ks Hk Hnd IH].
  - simpl. rewrite filter_keeps_none; [reflexivity|].
    intros r _ [_ Hin]. inversion Hin.
  - change (map ?f (k :: ks)) with ([f k] ++ map f ks).
    rewrite total_of_app, IH. unfold total_of at 1. simpl foldr. rewrite Z.add_0_r.
    apply count_disjoint.
    + intros r _. rewrite fmap_cons, elem_of_cons. split.
      * intros [HQ [E | Hin]]; [left | right]; auto.
      * intros [[HQ E] | [HQ Hin]]; auto.
    + intros r _ [[_ E] [_ Hin]]. rewrite E in Hin.
      apply list_elem_of_fmap in Hin as (k' & Ek & Hin). injection Ek as <-.
      contradiction.
Qed.

Lemma group_sizes_of_column {A} (key : A -> option pystr) (Q : A -> Prop)
    `{!forall x, Decision (Q x)} (l : list A) :
  total_of (map (fun k => nrows (filter (fun r => Q r /\ key r = Some k) l))
              (group_keys (map key l)))
  = nrows (filter (fun r => Q r /\ is_Some (key r)) l).
Proof.
  rewrite group_sizes_total by apply group_keys_NoDup.
  f_equal. apply filter_on_members. intros r Hr.
  split; intros [HQ Hkey]; (split; [exact HQ|]).
  - apply list_elem_of_fmap in Hkey as (k & -> & _). eauto.
  - destruct Hkey as [k Hk]. rewrite Hk. apply list_elem_of_fmap.
    exists k. split; [reflexivity|]. apply group_keys_elem.
    rewrite <- Hk. apply list_elem_of_fmap. exists r. auto.
Qed.

(** X21.  The table by city has one line per city present, without
    repetition.  Its totals add up to the number of establishments
    that have a city and an operator, and its open counts to the number
    of open establishments that have a city.  When no city and no
    operator is missing, the lines add up to the total and to the open
    count of the overview, every line has between 0 and its total open,
    and the column "Fermés" adds up to everything that is not open,
    missing statuses included. *)
Theorem city_stats_add_up (shown : list bank_record) :
  NoDup (map cs_Ville (city_stats shown)) /\
  (forall ville, ville ∈ map cs_Ville (city_stats shown)
                 <-> exists r, r ∈ shown /\ b_Ville r = Some ville) /\
  total_of (map cs_Total (city_stats shown))
  = nrows (filter (fun r => is_Some (b_Operateurs r) /\ is_Some (b_Ville r)) shown) /\
  total_of (map cs_Ouverts (city_stats shown))
  = nrows (filter (fun r => is_open r /\ is_Some (b_Ville r)) shown) /\
  ((forall r, r ∈ shown -> is_Some (b_Ville r) /\ is_Some (b_Operateurs r)) ->
   total_of (map cs_Total (city_stats shown)) = total_banks shown /\
   total_of (map cs_Ouverts (city_stats shown)) = banks_open shown /\
   total_of (map cs_Fermes (city_stats shown)) = total_banks shown - banks_open shown /\
   forall c, c ∈ city_stats shown -> 0 <= cs_Ouverts c <= cs_Total c).
Proof.
  assert (Hkeys : map cs_Ville (city_stats shown) = group_keys (map b_Ville shown)).
  { unfold city_stats. rewrite map_map. simpl. apply map_id. }
  assert (Htot : total_of (map cs_Total (city_stats shown))
            = nrows (filter (fun r => is_Some (b_Operateurs r) /\ is_Some (b_Ville r))
                       shown)).
  { unfold city_stats. rewrite map_map. simpl.
    rewrite <- (group_sizes_of_column b_Ville (fun r => is_Some (b_Operateurs r))).
    f_equal. apply map_ext. intros k. rewrite list_filter_filter. reflexivity. }
  assert (Hopen : total_of (map cs_Ouverts (city_stats shown))
            = nrows (filter (fun r => is_open r /\ is_Some (b_Ville r)) shown)).
  { unfold city_stats. rewrite map_map. simpl.
    rewrite <- (group_sizes_of_column b_Ville is_open).
    f_equal. apply map_ext. intros k. rewrite list_filter_filter. reflexivity. }
  split; [rewrite Hkeys; apply group_keys_NoDup|].
  split.
  { intros ville. rewrite Hkeys, group_keys_elem, list_elem_of_fmap.
    split; intros (r & E & Hr); exists r; auto. }
  split; [exact Htot|]. split; [exact Hopen|].
  intros Hfull.
  assert (Ht : total_of (map cs_Total (city_stats shown)) = total_banks shown).
  { rewrite Htot. unfold total_banks. f_equal. apply filter_keeps_all.
    intros r Hr. destruct (Hfull r Hr). auto. }
  assert (Ho : total_of (map cs_Ouverts (city_stats shown)) = banks_open shown).
  { rewrite Hopen. unfold banks_open. f_equal. apply filter_on_members.
    intros r Hr. destruct (Hfull r Hr). tauto. }
  split; [exact Ht|]. split; [exact Ho|]. split.
  - rewrite <- Ht, <- Ho. unfold city_stats. rewrite !map_map. simpl.
    generalize (group_keys (map b_Ville shown)). intros ks.
    unfold total_of. induction ks as [|k ks IH]; simpl; [reflexivity|]. lia.
  - intros c Hc. unfold city_stats in Hc.
    apply list_elem_of_fmap in Hc as (ville & -> & _). simpl.
    set (group := filter (fun r => b_Ville r = Some ville) shown).
    assert (Hg : filter (fun r => is_Some (b_Operateurs r)) group = group).
    { apply filter_keeps_all. intros r Hr. unfold group in Hr.
      apply list_elem_of_filter in Hr as [_ Hr]. destruct (Hfull r Hr). auto. }
    rewrite Hg. unfold nrows. pose proof (length_filter is_open group). lia.
Qed.

Lemma city_stats_add_up_witness :
  total_of (map cs_Total (city_stats df_banks)) = total_banks df_banks /\
  total_of (map cs_Ouverts (city_stats df_banks)) = banks_open df_banks /\
  total_of (map cs_Fermes (city_stats df_banks)) = 2 /\
  banks_closed df_banks = 1.
Proof.
  destruct (city_stats_add_up df_banks) as (_ & _ & _ & _ & H).
  destruct H as (Ht & Ho & Hf & _).
  - intros r Hr.
    repeat (apply elem_of_cons in Hr as [-> | Hr]; [split; eexists; reflexivity|]).
    inversion Hr.
  - split; [exact Ht|]. split; [exact Ho|]. split; [|reflexivity].
    rewrite Hf. reflexivity.
Defined.

(** X22.  The distribution of the closing times has one entry per
    closing time present, without repetition, each with a count of at
    least one, and the counts add up to the number of open
    establishments that have a closing time. *)
Theorem hour_counts_add_up (shown : list bank_record) :
  NoDup (map fst (hour_counts (banks_with_hours shown))) /\
  (forall h n, (h, n) ∈ hour_counts (banks_with_hours shown) -> 1 <= n) /\
  total_of (map snd (hour_counts (banks_with_hours shown)))
  = nrows (banks_with_hours shown) /\
  forall r, r ∈ banks_with_hours shown <->
            r ∈ shown /\ is_open r /\ is_Some (b_Heure_de_fermeture r).
Proof.
  set (bw := banks_with_hours shown).
  assert (Hkeys : map fst (hour_counts bw)
                  = group_keys (map b_Heure_de_fermeture bw)).
  { unfold hour_counts. rewrite map_map. simpl. apply map_id. }
  split; [rewrite Hkeys; apply group_keys_NoDup|]. split; [|split].
  - intros h n Hin. unfold hour_counts in Hin.
    apply list_elem_of_fmap in Hin as (h' & E & Hk). injection E as -> ->.
    apply group_keys_elem, list_elem_of_fmap in Hk as (r & Er & Hr).
    assert (Hf : r ∈ filter (fun r => b_Heure_de_fermeture r = Some h') bw)
      by (apply list_elem_of_filter; auto).
    unfold nrows. destruct (filter _ bw); [inversion Hf | simpl; lia].
  - unfold hour_counts. rewrite map_map. simpl.
    transitivity (nrows (filter (fun r => True /\ is_Some (b_Heure_de_fermeture r)) bw)).
    + rewrite <- (group_sizes_of_column b_Heure_de_fermeture (fun _ => True)).
      f_equal. apply map_ext. intros k. f_equal. apply list_filter_iff. tauto.
    + f_equal. apply filter_keeps_all. intros r Hr. unfold bw, banks_with_hours in Hr.
      apply list_elem_of_filter in Hr as [[_ H] _]. auto.
  - intros r. unfold bw, banks_with_hours. rewrite list_elem_of_filter. tauto.
Qed.

End BankingPageFacts.
